(** * LLaVA_XTuner: the adapter of vlmeval/vlm/llava_xtuner.py

    A shallow embedding of the class [LLaVA_XTuner]: its constructor
    ([__init__], here [init]), [build_prompt] and [generate].  Python
    exceptions are the [Err] side of a result type, the image cache on
    disk is an explicit store threaded through [build_prompt], and the
    third-party libraries (transformers, peft, xtuner, PIL) are fields
    of an environment record. *)

From Stdlib Require Import ZArith NArith Lia List Ascii String DecimalString.
From stdpp Require Import base option list gmap sets.
Import ListNotations.

Local Open Scope N_scope.
Local Open Scope list_scope.

(** ** Python values *)

(** A Python [str] is a sequence of Unicode code points. *)
Definition pystr := list N.

(** [u "lit"] is the Python string of an ASCII literal. *)
Definition u (s : string) : pystr := map N_of_ascii (list_ascii_of_string s).
Arguments u : simpl never.

(** The newline of the source's ['\n']. *)
Definition nl : pystr := [10].

(** The exceptions the class can raise, by class.  [LibraryError] stands
    for whatever a third-party call raises ([OSError], [binascii.Error],
    CUDA errors, ...). *)
Inductive exn :=
| AssertionError | KeyError | TypeError | ValueError | SystemExit
| LibraryError.

Inductive result (A : Type) :=
| Ok (a : A)
| Err (e : exn).
Arguments Ok {A} a.
Arguments Err {A} e.

#[global] Instance result_ret : MRet result := @Ok.
#[global] Instance result_bind : MBind result := fun A B k r =>
  match r with
  | Ok a => k a
  | Err e => Err e
  end.

(** [assert c] *)
Definition assert (c : bool) : result unit :=
  if c then Ok tt else Err AssertionError.

(** [d[k]] on a dict given as a partial function *)
Definition getitem {A} (o : option A) : result A :=
  match o with
  | Some a => Ok a
  | None => Err KeyError
  end.

Definition is_ok {A} (r : result A) : bool :=
  match r with Ok _ => true | Err _ => false end.

(** Values of generation options. *)
Inductive pyval :=
| PNone
| PBool (b : bool)
| PInt (z : Z)
| PStr (s : pystr).

(** An [Optional[int]] attribute read as a Python value. *)
Definition of_optint (o : option Z) : pyval :=
  match o with
  | Some z => PInt z
  | None => PNone
  end.

(** ** The constructor *)

(** What [AutoTokenizer.from_pretrained] returns, as far as the class
    reads it. *)
Record tokenizer := {
  eos_token_id : option Z;
  pad_token_id : option Z;
  bos_token_id : option Z;
  (** [tokenizer(text, add_special_tokens=b)['input_ids']] *)
  encode : pystr -> bool -> list Z;
  (** [tokenizer.decode(ids, skip_special_tokens=True)] *)
  decode : list Z -> pystr
}.

(** A loaded model is known by where it was loaded from: the base
    checkpoint and the low-rank adapters merged into it, last first. *)
Record model := {
  base : pystr;
  adapters : list pystr
}.

(** What [CLIPImageProcessor.from_pretrained] returns: where it was
    loaded from and its [image_mean] scaled by 255 and truncated, the
    fill colour of [generate]. *)
Record processor := {
  processor_path : pystr;
  fill_colour : list Z
}.

(** An instruction template: the ['INSTRUCTION'] format string, parsed
    into literal text and [{input}] fields. *)
Inductive piece :=
| Lit (s : pystr)
| Input.

Definition template := list piece.

(** The file system and the libraries as the constructor sees them. *)
Record world := {
  (** [from peft import ...; from xtuner... import ...] succeeds *)
  xtuner_installed : bool;
  isdir : pystr -> bool;
  exists_ : pystr -> bool;
  listdir : pystr -> list pystr;
  get_cache_path : pystr -> option pystr;
  snapshot_download : pystr -> result pystr;
  (** [X.from_pretrained(path, ...)] for the models *)
  from_pretrained : pystr -> result model;
  (** [PeftModel.from_pretrained(m, path, ...)] *)
  peft_from_pretrained : model -> pystr -> result model;
  tokenizer_from_pretrained : pystr -> result tokenizer;
  image_processor_from_pretrained : pystr -> result processor;
  (** the second component of xtuner's [get_chat_utils(llm)] *)
  get_chat_utils : model -> result (list pystr);
  (** xtuner's [PROMPT_TEMPLATE] registry, ['INSTRUCTION'] entry *)
  PROMPT_TEMPLATE : pystr -> option template
}.

(** [osp.join(a, b)] *)
Definition osp_join (a b : pystr) : pystr :=
  match b with
  | 47 :: _ => b
  | _ =>
    match last a with
    | None => b
    | Some 47 => a ++ b
    | Some _ => a ++ [47] ++ b
    end
  end.

(** [x in l] for a list of strings *)
Definition pyin (x : pystr) (l : list pystr) : bool := bool_decide (x ∈ l).

Record adapter := {
  llm : model;
  the_tokenizer : tokenizer;
  visual_encoder : model;
  image_processor : processor;
  projector : model;
  visual_select_layer : Z;
  prompt_template : option template;
  stop_criteria : list pystr;
  gen_config : gmap pystr pyval
}.

(** [kwargs_default], lines 112-117 *)
Definition kwargs_default (t : tokenizer) : gmap pystr pyval :=
  <[u "max_new_tokens" := PInt 100]>
  (<[u "do_sample" := PBool false]>
  (<[u "eos_token_id" := of_optint (eos_token_id t)]>
  (<[u "pad_token_id" :=
       match pad_token_id t with
       | Some p => PInt p
       | None => of_optint (eos_token_id t)
       end]> ∅))).

(** Lines 118-122: [kwargs_default.update(kwargs)] when there are any. *)
Definition make_gen_config (t : tokenizer) (kwargs : gmap pystr pyval)
  : gmap pystr pyval :=
  if (0 <? size kwargs)%nat then kwargs ∪ kwargs_default t
  else kwargs_default t.

(** Lines 39-45: the bundle location. *)
Definition resolve (w : world) (llava_path : pystr) : result pystr :=
  p ← (if isdir w llava_path then Ok llava_path
        else match get_cache_path w llava_path with
             | Some cache_path => Ok cache_path
             | None => snapshot_download w llava_path
             end);
  _ ← assert (exists_ w p && isdir w p);
  Ok p.

(** Lines 48-54 and 66-73: bundled sub-model or explicit path. *)
Definition choose (w : world) (llava_path name : pystr)
    (explicit : option pystr) : result pystr :=
  if pyin name (listdir w llava_path) then
    _ ← assert (bool_decide (explicit = None));
    Ok (osp_join llava_path name)
  else
    match explicit with
    | Some path => Ok path
    | None => Err AssertionError
    end.

(** Lines 81-88: an optional low-rank adapter. *)
Definition with_adapter (w : world) (llava_path name : pystr) (m : model)
  : result model :=
  if pyin name (listdir w llava_path) then
    peft_from_pretrained w m (osp_join llava_path name)
  else Ok m.

(** [LLaVA_XTuner.__init__] *)
Definition init (w : world) (llava_path : pystr)
    (llm_path visual_encoder_path : option pystr)
    (visual_select_layer : Z) (prompt_template : option pystr)
    (kwargs : gmap pystr pyval) : result adapter :=
  _ ← (if xtuner_installed w then Ok tt else Err SystemExit);
  llava_path ← resolve w llava_path;
  llm_path ← choose w llava_path (u "llm") llm_path;
  llm ← from_pretrained w llm_path;
  tokenizer ← tokenizer_from_pretrained w llm_path;
  visual_encoder_path ←
    choose w llava_path (u "visual_encoder") visual_encoder_path;
  visual_encoder ← from_pretrained w visual_encoder_path;
  image_processor ← image_processor_from_pretrained w visual_encoder_path;
  llm ← with_adapter w llava_path (u "llm_adapter") llm;
  visual_encoder ←
    with_adapter w llava_path (u "visual_encoder_adapter") visual_encoder;
  projector ← from_pretrained w (osp_join llava_path (u "projector"));
  template ←
    match prompt_template with
    | Some name => t ← getitem (PROMPT_TEMPLATE w name); Ok (Some t)
    | None => Ok None
    end;
  stop_criteria ← get_chat_utils w llm;
  Ok {| llm := llm;
        the_tokenizer := tokenizer;
        visual_encoder := visual_encoder;
        image_processor := image_processor;
        projector := projector;
        visual_select_layer := visual_select_layer;
        prompt_template := template;
        stop_criteria := stop_criteria;
        gen_config := make_gen_config tokenizer kwargs |}.

(** ** Rows and prompts *)

(** A cell of a text column of a row: missing ([None], [NaN]), a string
    or an integer. *)
Inductive scalar :=
| SNone
| SNaN
| SStr (s : pystr)
| SInt (z : Z).

(** [pd.isna(v)] *)
Definition pd_isna (v : scalar) : bool :=
  match v with
  | SNone | SNaN => true
  | SStr _ | SInt _ => false
  end.

(** [str(v)], which is also what an f-string field [{v}] prints *)
Definition py_str (v : scalar) : pystr :=
  match v with
  | SNone => u "None"
  | SNaN => u "nan"
  | SStr s => s
  | SInt z => u (NilZero.string_of_int (Z.to_int z))
  end.

(** The operand of a [str + ...] concatenation. *)
Definition as_str (v : scalar) : result pystr :=
  match v with
  | SStr s => Ok s
  | _ => Err TypeError
  end.

(** The ['image'] cell: one base64 image or a list of them. *)
Inductive image_cell :=
| OneImage (img : pystr)
| ManyImages (imgs : list pystr).

(** A row of a benchmark table.  [cols] are the text columns in the
    order of the table (['index'], ['question'], ['hint'], ['A'] ...),
    [image] is the ['image'] column, which every row has, and
    [image_path] the ['image_path'] column when the row has one. *)
Record row := {
  cols : list (pystr * scalar);
  image : image_cell;
  image_path : option (list pystr)
}.

(** The first column of that name. *)
Fixpoint assoc (k : pystr) (l : list (pystr * scalar)) : option scalar :=
  match l with
  | [] => None
  | (k', v) :: l' => if bool_decide (k = k') then Some v else assoc k l'
  end.

(** [line[k]] when [k in line] *)
Definition col (line : row) (k : string) : option scalar :=
  assoc (u k) (cols line).

(** Modelled from the spec: [cn_string] of vlmeval/smp, the language
    detection of [build_prompt], "a simple script-membership check":
    the text contains a CJK ideograph, a code point of the block
    U+4E00..U+9FFF. *)
Definition is_cjk (c : N) : bool := (0x4e00 <=? c) && (c <=? 0x9fff).

Definition cn_string (s : pystr) : bool := existsb is_cjk s.

(** The two instructions of lines 160-164.  [zh_instruction] is
    U+8BF7 U+76F4 U+63A5 U+56DE U+7B54 U+9009 U+9879 U+5B57 U+6BCD U+3002. *)
Definition en_instruction : pystr :=
  u "Answer with the option's letter from the given choices directly.".

Definition zh_instruction : pystr :=
  [0x8bf7; 0x76f4; 0x63a5; 0x56de; 0x7b54; 0x9009; 0x9879; 0x5b57; 0x6bcd;
   0x3002].

Definition option_candidate : list string := ["A"; "B"; "C"; "D"; "E"]%string.

(** Lines 150-154: the dict [options], in insertion order. *)
Definition options (line : row) : list (string * scalar) :=
  omap (fun cand =>
          match col line cand with
          | Some v => if pd_isna v then None else Some (cand, v)
          | None => None
          end) option_candidate.

(** One pass of the loop of lines 156-157. *)
Definition add_option (options_prompt : pystr) (kv : string * scalar)
  : pystr :=
  options_prompt ++ u (fst kv) ++ u ". " ++ py_str (snd kv) ++ nl.

Definition options_header : pystr := u "There are several options:" ++ nl.

(** Lines 155-157 *)
Definition options_prompt (line : row) : pystr :=
  fold_left add_option (options line) options_header.

(** Lines 143-147: the question, after the hint when there is one. *)
Definition hinted_question (line : row) : result scalar :=
  question ← getitem (col line "question");
  let hint :=
    match col line "hint" with
    | Some h => if pd_isna h then None else Some h
    | None => None
    end in
  match hint with
  | Some h =>
    h ← as_str h;
    q ← as_str question;
    Ok (SStr (h ++ u " " ++ q))
  | None => Ok question
  end.

(** Lines 143-158: [prompt] before the instruction is appended. *)
Definition assembled_prompt (line : row) : result pystr :=
  question ← hinted_question line;
  q ← as_str question;
  Ok (q ++ u " " ++ options_prompt line).

(** Lines 160-164 *)
Definition add_instruction (prompt : pystr) : pystr :=
  if negb (cn_string prompt) then prompt ++ nl ++ en_instruction
  else prompt ++ nl ++ zh_instruction.

(** The tables of vlmeval/utils and the image helpers of vlmeval/smp,
    none of them in this file. *)
Definition file := list N.

Record datasets := {
  (** [DATASET_TYPE(dataset)] *)
  DATASET_TYPE : pystr -> pystr;
  (** [img_root_map[dataset]], [None] when the key is not in the dict *)
  img_root_map : option pystr -> option pystr;
  (** the image library opens the file and finds a positive size *)
  readable : file -> bool;
  (** the JPEG file of a base64 image; [None] when decoding raises *)
  decode_base64_to_image : pystr -> option file
}.

(** Lines 142-166: the [text] of the prompt record. *)
Definition build_text (ds : datasets) (line : row) (dataset : option pystr)
  : result scalar :=
  match dataset with
  | Some d =>
    if bool_decide (DATASET_TYPE ds d = u "multi-choice") then
      prompt ← assembled_prompt line;
      Ok (SStr (add_instruction prompt))
    else getitem (col line "question")
  | None => getitem (col line "question")
  end.

(** ** The image cache *)

(** The disk: files by path, the directories made, and the trace of the
    writes, oldest first. *)
Record store := {
  files : gmap pystr file;
  dirs : gset pystr;
  written : list pystr
}.

(** [os.makedirs(d, exist_ok=True)], where the call succeeds: no file
    is in the way of [d] and the process may write there.  Of the
    directories the call makes, only [d] itself is recorded. *)
Definition makedirs (d : pystr) (st : store) : store :=
  {| files := files st; dirs := {[ d ]} ∪ dirs st; written := written st |}.

(** Modelled from the spec: [read_ok] of vlmeval/smp, "the target file
    already exists and is verified readable". *)
Definition read_ok (ds : datasets) (st : store) (path : pystr) : bool :=
  match files st !! path with
  | Some f => readable ds f
  | None => false
  end.

(** Modelled from the spec: [decode_base64_to_image_file] of vlmeval/smp,
    "each image is decoded and written" at the target path. *)
Definition decode_base64_to_image_file (ds : datasets) (img path : pystr)
    (st : store) : result unit * store :=
  match decode_base64_to_image ds img with
  | Some f =>
    (Ok tt, {| files := <[path := f]> (files st);
               dirs := dirs st;
               written := written st ++ [path] |})
  | None => (Err LibraryError, st)
  end.

(** Lines 134-135 and 139-140 *)
Definition cache_image (ds : datasets) (img path : pystr) (st : store)
  : result unit * store :=
  if negb (read_ok ds st path) then decode_base64_to_image_file ds img path st
  else (Ok tt, st).

(** Lines 131-136: the loop over [zip(line['image'], line['image_path'])]. *)
Fixpoint cache_images (ds : datasets) (img_root : pystr)
    (pairs : list (pystr * pystr)) (st : store)
  : result (list pystr) * store :=
  match pairs with
  | [] => (Ok [], st)
  | (img, im_name) :: rest =>
    let path := osp_join img_root im_name in
    match cache_image ds img path st with
    | (Ok _, st1) =>
      match cache_images ds img_root rest st1 with
      | (Ok tgt_path, st2) => (Ok (path :: tgt_path), st2)
      | (Err e, st2) => (Err e, st2)
      end
    | (Err e, st1) => (Err e, st1)
    end
  end.

(** The [image] of the prompt record. *)
Inductive target :=
| Path (p : pystr)
| Paths (ps : list pystr).

(** Lines 130-140 *)
Definition materialize (ds : datasets) (img_root : pystr) (line : row)
    (st : store) : result target * store :=
  match image line with
  | ManyImages imgs =>
    match image_path line with
    | Some names =>
      match cache_images ds img_root (zip imgs names) st with
      | (Ok tgt_path, st1) => (Ok (Paths tgt_path), st1)
      | (Err e, st1) => (Err e, st1)
      end
    | None => (Err KeyError, st)
    end
  | OneImage img =>
    match col line "index" with
    | Some index =>
      let tgt_path := osp_join img_root (py_str index ++ u ".jpg") in
      match cache_image ds img tgt_path st with
      | (Ok _, st1) => (Ok (Path tgt_path), st1)
      | (Err e, st1) => (Err e, st1)
      end
    | None => (Err KeyError, st)
    end
  end.

Record prompt_record := {
  prompt_image : target;
  prompt_text : scalar
}.

(** [LLaVA_XTuner.build_prompt] *)
Definition build_prompt (ds : datasets) (line : row) (dataset : option pystr)
    (st : store) : result prompt_record * store :=
  match img_root_map ds dataset with
  | None => (Err KeyError, st)
  | Some root =>
    let img_root := osp_join (u "images") root in
    let st0 := makedirs img_root st in
    match materialize ds img_root line st0 with
    | (Err e, st1) => (Err e, st1)
    | (Ok tgt_path, st1) =>
      match build_text ds line dataset with
      | Ok prompt =>
        (Ok {| prompt_image := tgt_path; prompt_text := prompt |}, st1)
      | Err e => (Err e, st1)
      end
    end
  end.

(** ** Generation *)

(** [s.startswith(sep)] *)
Fixpoint starts_with (sep s : pystr) : bool :=
  match sep, s with
  | [], _ => true
  | _ :: _, [] => false
  | a :: sep', b :: s' => (a =? b) && starts_with sep' s'
  end.

(** [s.split(sep)] scans [s] from the left and cuts at every match of
    [sep], resuming after the match: [skip] characters of the last
    match are still to be passed and [cur] is the segment so far. *)
Fixpoint split_go (sep : pystr) (skip : nat) (cur s : pystr) : list pystr :=
  match s with
  | [] => [cur]
  | c :: s' =>
    match skip with
    | S k => split_go sep k cur s'
    | O =>
      if starts_with sep s then cur :: split_go sep (length sep - 1) [] s'
      else split_go sep 0 (cur ++ [c]) s'
    end
  end.

Definition pysplit (sep s : pystr) : result (list pystr) :=
  match sep with
  | [] => Err ValueError
  | _ => Ok (split_go sep 0 [] s)
  end.

(** [s.count(sep)], the number of non-overlapping matches of [sep] from
    the left, for a non-empty [sep]. *)
Fixpoint count_go (sep : pystr) (skip : nat) (s : pystr) : nat :=
  match s with
  | [] => 0
  | _ :: s' =>
    match skip with
    | S k => count_go sep k s'
    | O =>
      if starts_with sep s then S (count_go sep (length sep - 1) s')
      else count_go sep 0 s'
    end
  end.

Definition pycount (sep s : pystr) : nat := count_go sep 0 s.

(** [c.isspace()] *)
Definition isspace (c : N) : bool :=
  ((9 <=? c) && (c <=? 13)) || ((28 <=? c) && (c <=? 32))
  || (c =? 0x85) || (c =? 0xa0) || (c =? 0x1680)
  || ((0x2000 <=? c) && (c <=? 0x200a))
  || (c =? 0x2028) || (c =? 0x2029) || (c =? 0x202f) || (c =? 0x205f)
  || (c =? 0x3000).

Fixpoint lstrip (s : pystr) : pystr :=
  match s with
  | c :: s' => if isspace c then lstrip s' else s
  | [] => []
  end.

(** [s.strip()] *)
Definition strip (s : pystr) : pystr := rev (lstrip (rev (lstrip s))).

(** [fmt.format(input=inputs)], for a format string whose replacement
    fields are all [{input}]; a format string with another field, on
    which [str.format] raises, is no [template]. *)
Definition format (fmt : template) (inputs : pystr) : pystr :=
  concat (map (fun p => match p with Lit s => s | Input => inputs end) fmt).

(** The image tensor and the token ids are the libraries' own. *)
Definition tensor := list Z.

(** xtuner's constants and the model calls of [generate]. *)
Record runtime := {
  DEFAULT_IMAGE_TOKEN : pystr;
  IMAGE_TOKEN_INDEX : Z;
  (** lines 174-183: open, pad, preprocess, encode and project the image *)
  encode_image : adapter -> pystr -> result tensor;
  (** lines 203-212: [prepare_inputs_labels_for_multimodal] and
      [llm.generate(...)[0]] *)
  llm_generate : adapter -> list Z -> tensor -> result (list Z)
}.

(** Lines 185-188: the text given to the tokenizer. *)
Definition compose (rt : runtime) (a : adapter) (prompt : pystr) : pystr :=
  let inputs := DEFAULT_IMAGE_TOKEN rt ++ nl ++ prompt in
  match prompt_template a with
  | Some t => format t inputs
  | None => inputs
  end.

(** Lines 190-196: the first chunk with special tokens, the others
    without. *)
Definition encode_chunks (t : tokenizer) (chunks : list pystr)
  : list (list Z) :=
  imap (fun idx chunk => encode t chunk (bool_decide (idx = 0%nat))) chunks.

(** Lines 198-202: the ids of the chunks, [IMAGE_TOKEN_INDEX] between
    them. *)
Fixpoint splice (image_token : Z) (chunk_encode : list (list Z)) : list Z :=
  match chunk_encode with
  | [] => []
  | [cur] => cur
  | cur :: rest => cur ++ [image_token] ++ splice image_token rest
  end.

(** Lines 185-202: from the prompt to the token ids. *)
Definition tokenize (rt : runtime) (a : adapter) (prompt : pystr)
  : result (list Z) :=
  let inputs := compose rt a prompt in
  chunks ← pysplit (DEFAULT_IMAGE_TOKEN rt) inputs;
  let chunk_encode := encode_chunks (the_tokenizer a) chunks in
  _ ← assert (bool_decide (length chunk_encode = 2%nat));
  Ok (splice (IMAGE_TOKEN_INDEX rt) chunk_encode).

(** [LLaVA_XTuner.generate] *)
Definition generate (rt : runtime) (a : adapter) (image_path prompt : pystr)
  : result pystr :=
  pixel_values ← encode_image rt a image_path;
  ids ← tokenize rt a prompt;
  generate_output ← llm_generate rt a ids pixel_values;
  Ok (strip (decode (the_tokenizer a) generate_output)).

(** ** Reading the definitions back *)

(** One line of the option block, as the prompt shows it. *)
Definition option_line (kv : string * scalar) : pystr :=
  u (fst kv) ++ u ". " ++ py_str (snd kv) ++ nl.

(** The column [k] is absent from the row or holds a missing value. *)
Definition missing (line : row) (k : string) : Prop :=
  ∀ v, col line k = Some v → pd_isna v = true.

(** The store [s'] keeps every file that [read_ok] accepts in [s]. *)
Definition preserves (ds : datasets) (s s' : store) : Prop :=
  ∀ p, read_ok ds s p = true → files s' !! p = files s !! p.

(** ** Sample inputs *)

Module Sample.

Definition tok : tokenizer :=
  {| eos_token_id := Some 2%Z;
     pad_token_id := None;
     bos_token_id := Some 1%Z;
     encode := fun s special =>
       (if special then [1%Z] else []) ++ map Z.of_N s;
     decode := map Z.to_N |}.

Definition padded_tok : tokenizer :=
  {| eos_token_id := Some 2%Z;
     pad_token_id := Some 0%Z;
     bos_token_id := Some 1%Z;
     encode := encode tok;
     decode := decode tok |}.

(** A machine with one checkpoint directory, [bundle], whose children
    are [children], and where every path loads. *)
Definition machine (children : list pystr) (t : tokenizer) : world :=
  {| xtuner_installed := true;
     isdir := fun p => bool_decide (p = u "bundle");
     exists_ := fun p => bool_decide (p = u "bundle");
     listdir := fun _ => children;
     get_cache_path := fun _ => None;
     snapshot_download := fun _ => Err LibraryError;
     from_pretrained := fun p => Ok {| base := p; adapters := [] |};
     peft_from_pretrained := fun m p =>
       Ok {| base := base m; adapters := p :: adapters m |};
     tokenizer_from_pretrained := fun _ => Ok t;
     image_processor_from_pretrained := fun p =>
       Ok {| processor_path := p; fill_colour := [122; 116; 104]%Z |};
     get_chat_utils := fun _ => Ok [];
     PROMPT_TEMPLATE := fun _ => None |}.

Definition full : world :=
  machine [u "llm"; u "projector"; u "visual_encoder"] tok.

Definition bare : world := machine [u "projector"] tok.

Definition tables : datasets :=
  {| DATASET_TYPE := fun d =>
       if bool_decide (d = u "MMBench") then u "multi-choice" else u "QA";
     img_root_map := fun d =>
       match d with
       | Some name => Some name
       | None => None
       end;
     readable := fun f => negb (bool_decide (f = []));
     decode_base64_to_image := fun img =>
       match img with
       | [] => None
       | _ => Some img
       end |}.

Definition empty_disk : store := {| files := ∅; dirs := ∅; written := [] |}.

Definition sky : row :=
  {| cols := [(u "index", SInt 7);
              (u "question", SStr (u "What color is the sky?"));
              (u "A", SStr (u "Blue"));
              (u "B", SStr (u "Green"))];
     image := OneImage (u "aGVsbG8=");
     image_path := None |}.

(** Options out of order, [D] missing, no [E], and a hint. *)
Definition shuffled : row :=
  {| cols := [(u "C", SStr (u "three"));
              (u "D", SNaN);
              (u "hint", SStr (u "Count."));
              (u "A", SInt 1);
              (u "question", SStr (u "How many?"));
              (u "index", SInt 12);
              (u "B", SStr (u "two"))];
     image := OneImage (u "aGVsbG8=");
     image_path := None |}.

(** U+5929 U+7A7A U+662F U+4EC0 U+4E48 U+989C U+8272 U+FF1F *)
Definition sky_zh : row :=
  {| cols := [(u "index", SInt 8);
              (u "question",
               SStr [0x5929; 0x7a7a; 0x662f; 0x4ec0; 0x4e48; 0x989c; 0x8272;
                     0xff1f]);
              (u "A", SStr [0x84dd]);
              (u "B", SStr [0x7eff])];
     image := OneImage (u "aGVsbG8=");
     image_path := None |}.

(** Two images, three file names. *)
Definition pair : row :=
  {| cols := [(u "index", SInt 3); (u "question", SStr (u "Same?"))];
     image := ManyImages [u "aQ=="; u "ag=="];
     image_path := Some [u "3_1.jpg"; u "3_2.jpg"; u "3_3.jpg"] |}.

Definition xtuner : runtime :=
  {| DEFAULT_IMAGE_TOKEN := u "<image>";
     IMAGE_TOKEN_INDEX := (-200)%Z;
     encode_image := fun _ _ => Ok [];
     llm_generate := fun _ _ _ => Ok [32; 65; 10]%Z |}.

Definition plain (t : option template) : adapter :=
  {| llm := {| base := u "bundle/llm"; adapters := [] |};
     the_tokenizer := tok;
     visual_encoder := {| base := u "bundle/visual_encoder"; adapters := [] |};
     image_processor :=
       {| processor_path := u "bundle/visual_encoder";
          fill_colour := [122; 116; 104]%Z |};
     projector := {| base := u "bundle/projector"; adapters := [] |};
     visual_select_layer := (-2)%Z;
     prompt_template := t;
     stop_criteria := [];
     gen_config := kwargs_default tok |}.

(** A template that never mentions its input. *)
Definition deaf : template := [Lit (u "Say hello.")].

End Sample.

(** ** More readings and sample inputs *)

(** The paths a prompt record names. *)
Definition targets (t : target) : list pystr :=
  match t with
  | Path p => [p]
  | Paths ps => ps
  end.

(** [sep.join(l)] *)
Fixpoint pyjoin (sep : pystr) (l : list pystr) : pystr :=
  match l with
  | [] => []
  | [x] => x
  | x :: rest => x ++ sep ++ pyjoin sep rest
  end.

(** The adapter [a] with another template. *)
Definition with_template (a : adapter) (t : option template) : adapter :=
  {| llm := llm a;
     the_tokenizer := the_tokenizer a;
     visual_encoder := visual_encoder a;
     image_processor := image_processor a;
     projector := projector a;
     visual_select_layer := visual_select_layer a;
     prompt_template := t;
     stop_criteria := stop_criteria a;
     gen_config := gen_config a |}.

(** The paths lines 130-140 compute for a row, the disk left aside. *)
Definition target_of (img_root : pystr) (line : row) : result target :=
  match image line with
  | ManyImages imgs =>
    names ← getitem (image_path line);
    Ok (Paths (map (osp_join img_root) (zip imgs names).*2))
  | OneImage _ =>
    index ← getitem (col line "index");
    Ok (Path (osp_join img_root (py_str index ++ u ".jpg")))
  end.

(** The base64 images of a row. *)
Definition row_images (line : row) : list pystr :=
  match image line with
  | OneImage img => [img]
  | ManyImages imgs => imgs
  end.

(** The dataset is one of multiple choice. *)
Definition multi_choice (ds : datasets) (dataset : option pystr) : Prop :=
  ∃ d, dataset = Some d ∧ DATASET_TYPE ds d = u "multi-choice".

(** What a pass over the cache writes, [new], and what it leaves: the
    store [s'] is [s] with the files of [new] written, oldest first. *)
Definition frame (s s' : store) (new : list pystr) : Prop :=
  written s' = written s ++ new ∧
  dirs s' = dirs s ∧
  (∀ p, p ∉ new → files s' !! p = files s !! p) ∧
  (∀ p, p ∈ new → is_Some (files s' !! p)) ∧
  (∀ p, is_Some (files s !! p) → is_Some (files s' !! p)).

(** No whitespace at the head of [s]. *)
Definition tight (s : pystr) : Prop :=
  match s with
  | [] => True
  | c :: _ => isspace c = false
  end.

Module Cases.

(** A machine where [org/llava] is no directory but is in the cache,
    the bundle has both adapters, the projector does not load and one
    template is registered. *)
Definition cached : world :=
  {| xtuner_installed := true;
     isdir := fun p => bool_decide (p = u "cache/llava");
     exists_ := fun p => bool_decide (p = u "cache/llava");
     listdir := fun _ =>
       [u "llm"; u "llm_adapter"; u "projector"; u "visual_encoder";
        u "visual_encoder_adapter"];
     get_cache_path := fun p =>
       if bool_decide (p = u "org/llava") then Some (u "cache/llava")
       else None;
     snapshot_download := fun _ => Err LibraryError;
     from_pretrained := fun p =>
       if bool_decide (p = u "cache/llava/projector") then Err LibraryError
       else Ok {| base := p; adapters := [] |};
     peft_from_pretrained := fun m p =>
       Ok {| base := base m; adapters := p :: adapters m |};
     tokenizer_from_pretrained := fun _ => Ok Sample.tok;
     image_processor_from_pretrained := fun p =>
       Ok {| processor_path := p; fill_colour := [122; 116; 104]%Z |};
     get_chat_utils := fun _ => Ok [];
     PROMPT_TEMPLATE := fun _ => None |}.

(** The same machine with a projector that loads and the template
    [vicuna]. *)
Definition complete : world :=
  {| xtuner_installed := true;
     isdir := isdir cached;
     exists_ := exists_ cached;
     listdir := listdir cached;
     get_cache_path := get_cache_path cached;
     snapshot_download := snapshot_download cached;
     from_pretrained := fun p => Ok {| base := p; adapters := [] |};
     peft_from_pretrained := peft_from_pretrained cached;
     tokenizer_from_pretrained := tokenizer_from_pretrained cached;
     image_processor_from_pretrained :=
       image_processor_from_pretrained cached;
     get_chat_utils := get_chat_utils cached;
     PROMPT_TEMPLATE := fun name =>
       if bool_decide (name = u "vicuna")
       then Some [Lit (u "USER: "); Input; Lit (u " ASSISTANT:")]
       else None |}.

(** A multi-choice row whose question is a number. *)
Definition numeric_question : row :=
  {| cols := [(u "index", SInt 1); (u "question", SInt 42);
              (u "A", SStr (u "yes"))];
     image := OneImage (u "aQ==");
     image_path := None |}.

(** An English question with one option in Chinese (U+84DD). *)
Definition mixed : row :=
  {| cols := [(u "index", SInt 5); (u "question", SStr (u "Which one?"));
              (u "A", SStr (u "blue")); (u "B", SStr [0x84dd])];
     image := OneImage (u "aQ==");
     image_path := None |}.

(** A question with a missing hint and no option. *)
Definition bare_question : row :=
  {| cols := [(u "index", SInt 6); (u "hint", SNaN);
              (u "question", SStr (u "Why?")); (u "A", SNone)];
     image := OneImage (u "aQ==");
     image_path := None |}.


(** A disk that already holds the image of [undecodable]. *)
Definition warm_disk : store :=
  {| files := {[ u "images/MME/9.jpg" := [255; 216] ]};
     dirs := {[ u "images/MME" ]};
     written := [] |}.

End Cases.

(** * Properties *)

(** ** The result monad *)

Lemma bind_Ok {A B} (r : result A) (k : A → result B) (b : B) :
  r ≫= k = Ok b → ∃ a, r = Ok a ∧ k a = Ok b.
Proof. destruct r as [a|e]; [eauto | discriminate]. Qed.

Lemma bind_Err_l {A B} (k : A → result B) (e : exn) : Err e ≫= k = Err e.
Proof. reflexivity. Qed.

Lemma bind_Ok_l {A B} (k : A → result B) (a : A) : Ok a ≫= k = k a.
Proof. reflexivity. Qed.

Lemma is_ok_Ok {A} (r : result A) : is_ok r = true → ∃ a, r = Ok a.
Proof. destruct r; [eauto | discriminate]. Qed.

Lemma is_ok_bind {A B} (r : result A) (k : A → result B) :
  is_ok r = false → is_ok (r ≫= k) = false.
Proof. destruct r; [discriminate | reflexivity]. Qed.

(** Peel the successful steps off a [... = Ok _] hypothesis. *)
Ltac ok_steps H :=
  repeat (let a := fresh "a" in
          let Ha := fresh "Ha" in
          apply bind_Ok in H as (a & Ha & H)).

(** ** The definitions on small inputs *)

Example osp_join_plain : osp_join (u "images") (u "MMBench") = u "images/MMBench".
Proof. reflexivity. Qed.

Example osp_join_slash : osp_join (u "cache/") (u "llm") = u "cache/llm".
Proof. reflexivity. Qed.

Example osp_join_absolute : osp_join (u "images") (u "/tmp/1.jpg") = u "/tmp/1.jpg".
Proof. reflexivity. Qed.

Example py_str_negative : py_str (SInt (-12)) = u "-12".
Proof. reflexivity. Qed.

Example py_str_zero : py_str (SInt 0) = u "0".
Proof. reflexivity. Qed.

Example cn_string_zh : cn_string zh_instruction = true.
Proof. reflexivity. Qed.

Example cn_string_en : cn_string en_instruction = false.
Proof. reflexivity. Qed.

Example pysplit_once :
  pysplit (u "<image>") (u "<image>" ++ nl ++ u "hi")
  = Ok [[]; nl ++ u "hi"].
Proof. reflexivity. Qed.

Example pysplit_overlap : pysplit (u "aa") (u "aaa") = Ok [[]; u "a"].
Proof. reflexivity. Qed.

Example pysplit_empty_sep : pysplit [] (u "aaa") = Err ValueError.
Proof. reflexivity. Qed.

Example pycount_greedy : pycount (u "aa") (u "aaaaa") = 2%nat.
Proof. reflexivity. Qed.

Example strip_both : strip (u "  yes " ++ nl) = u "yes".
Proof. reflexivity. Qed.

Example format_wraps :
  format [Lit (u "USER: "); Input; Lit (u " ASSISTANT:")] (u "hi")
  = u "USER: hi ASSISTANT:".
Proof. reflexivity. Qed.

Example tokenize_plain :
  tokenize Sample.xtuner (Sample.plain None) (u "hi")
  = Ok [1; -200; 10; 104; 105]%Z.
Proof. reflexivity. Qed.

Example generate_plain :
  generate Sample.xtuner (Sample.plain None) (u "7.jpg") (u "hi")
  = Ok (u "A").
Proof. vm_compute. reflexivity. Qed.

Example init_full :
  is_ok (init Sample.full (u "bundle") None None (-2) None ∅) = true.
Proof. reflexivity. Qed.

Example init_missing_xtuner (w : world) :
  xtuner_installed w = false →
  init w (u "bundle") None None (-2) None ∅ = Err SystemExit.
Proof. intros H. unfold init. by rewrite H. Qed.

Example build_prompt_no_dataset :
  build_prompt Sample.tables Sample.sky None Sample.empty_disk
  = (Err KeyError, Sample.empty_disk).
Proof. reflexivity. Qed.

(** ** The constructor *)

Section Constructor.

Context (w : world) (llava_path : pystr).
Context (llm_path visual_encoder_path : option pystr).
Context (select_layer : Z) (template_name : option pystr).
Context (kwargs : gmap pystr pyval).

Let built := init w llava_path llm_path visual_encoder_path select_layer
                  template_name kwargs.

Lemma choose_bundled dir name explicit :
  name ∈ listdir w dir → explicit ≠ None →
  choose w dir name explicit = Err AssertionError.
Proof.
  intros Hin Hex. unfold choose, pyin.
  rewrite bool_decide_eq_true_2 by done.
  rewrite (bool_decide_eq_false_2 (explicit = None)) by done. reflexivity.
Qed.

Lemma choose_missing dir name :
  name ∉ listdir w dir → choose w dir name None = Err AssertionError.
Proof.
  intros Hin. unfold choose, pyin.
  by rewrite bool_decide_eq_false_2.
Qed.

(** Whatever [choose] answers on a clash, it is not a path. *)
Lemma choose_clash dir name explicit :
  (name ∈ listdir w dir ∧ explicit ≠ None) ∨
  ((name ∉ listdir w dir) ∧ explicit = None) →
  choose w dir name explicit = Err AssertionError.
Proof.
  intros [[Hin Hex]|[Hin ->]]; auto using choose_bundled, choose_missing.
Qed.

(** A constructed adapter went through every step of [__init__]. *)
Lemma init_Ok (a : adapter) :
  built = Ok a →
  ∃ dir p,
    resolve w llava_path = Ok dir ∧
    choose w dir (u "llm") llm_path = Ok p ∧
    tokenizer_from_pretrained w p = Ok (the_tokenizer a) ∧
    is_ok (choose w dir (u "visual_encoder") visual_encoder_path) = true ∧
    gen_config a = make_gen_config (the_tokenizer a) kwargs.
Proof.
  unfold built, init. intros H. ok_steps H.
  injection H as <-. simpl.
  exists a1, a2. rewrite Ha4. repeat split; assumption.
Qed.

End Constructor.

Lemma kwargs_default_max_new_tokens (t : tokenizer) :
  kwargs_default t !! u "max_new_tokens" = Some (PInt 100).
Proof. unfold kwargs_default. by simplify_map_eq. Qed.

Lemma kwargs_default_do_sample (t : tokenizer) :
  kwargs_default t !! u "do_sample" = Some (PBool false).
Proof. unfold kwargs_default. by simplify_map_eq. Qed.

Lemma kwargs_default_eos (t : tokenizer) :
  kwargs_default t !! u "eos_token_id" = Some (of_optint (eos_token_id t)).
Proof. unfold kwargs_default. by simplify_map_eq. Qed.

Lemma kwargs_default_pad (t : tokenizer) :
  kwargs_default t !! u "pad_token_id" =
  Some (match pad_token_id t with
        | Some p => PInt p
        | None => of_optint (eos_token_id t)
        end).
Proof. unfold kwargs_default. by simplify_map_eq. Qed.

Lemma make_gen_config_empty (t : tokenizer) : make_gen_config t ∅ = kwargs_default t.
Proof. reflexivity. Qed.

Lemma make_gen_config_lookup (t : tokenizer) (kwargs : gmap pystr pyval)
    (k : pystr) :
  make_gen_config t kwargs !! k =
  match kwargs !! k with
  | Some v => Some v
  | None => kwargs_default t !! k
  end.
Proof.
  unfold make_gen_config.
  destruct (0 <? size kwargs)%nat eqn:Hsz.
  - rewrite lookup_union. destruct (kwargs !! k), (kwargs_default t !! k); done.
  - apply Nat.ltb_ge in Hsz.
    assert (kwargs = ∅) as -> by (apply map_size_empty_iff; lia).
    by rewrite lookup_empty.
Qed.

Lemma choose_Err (w : world) (dir name : pystr) (explicit : option pystr)
    (e : exn) :
  choose w dir name explicit = Err e → e = AssertionError.
Proof.
  unfold choose. destruct (pyin name (listdir w dir)), explicit; simpl;
    rewrite ?bool_decide_eq_true_2, ?bool_decide_eq_false_2 by naive_solver;
    simpl; congruence.
Qed.

(** C1.  In a checkpoint bundle that contains [llm], an explicit
    [llm_path] makes the constructor fail with an assertion error, and
    in a bundle without [llm] so does [llm_path=None].  The same holds
    of [visual_encoder] and [visual_encoder_path]: the constructor
    fails, and fails with an assertion error as soon as the libraries
    load the language model the first check chose. *)
Theorem init_rejects_path_conflicts (w : world) (llava_path dir : pystr)
    (llm_path visual_encoder_path : option pystr) (select_layer : Z)
    (template_name : option pystr) (kwargs : gmap pystr pyval) :
  xtuner_installed w = true →
  resolve w llava_path = Ok dir →
  let built := init w llava_path llm_path visual_encoder_path select_layer
                    template_name kwargs in
  let loads := ∀ p, choose w dir (u "llm") llm_path = Ok p →
                    is_ok (from_pretrained w p) = true ∧
                    is_ok (tokenizer_from_pretrained w p) = true in
  (u "llm" ∈ listdir w dir → llm_path ≠ None → built = Err AssertionError) ∧
  (u "llm" ∉ listdir w dir → llm_path = None → built = Err AssertionError) ∧
  (u "visual_encoder" ∈ listdir w dir → visual_encoder_path ≠ None →
   is_ok built = false ∧ (loads → built = Err AssertionError)) ∧
  (u "visual_encoder" ∉ listdir w dir → visual_encoder_path = None →
   is_ok built = false ∧ (loads → built = Err AssertionError)).
Proof.
  intros Hinst Hdir built loads.
  assert (Hllm : choose w dir (u "llm") llm_path = Err AssertionError →
                 built = Err AssertionError).
  { intros H. unfold built, init. by rewrite Hinst, Hdir, !bind_Ok_l, H. }
  assert (Hve : choose w dir (u "visual_encoder") visual_encoder_path
                = Err AssertionError →
                is_ok built = false ∧ (loads → built = Err AssertionError)).
  { intros H. unfold built, init. rewrite Hinst, Hdir, !bind_Ok_l.
    destruct (choose w dir (u "llm") llm_path) as [p|e] eqn:Hp.
    - rewrite bind_Ok_l.
      destruct (from_pretrained w p) as [m|e1] eqn:Hm.
      + destruct (tokenizer_from_pretrained w p) as [t|e2] eqn:Ht.
        * rewrite !bind_Ok_l, H. by split.
        * split; [done|]. intros Hl. destruct (Hl p eq_refl) as [_ Hl2].
          by rewrite Ht in Hl2.
      + split; [done|]. intros Hl. destruct (Hl p eq_refl) as [Hl1 _].
        by rewrite Hm in Hl1.
    - apply choose_Err in Hp as ->. by split. }
  repeat split.
  - intros. apply Hllm, choose_bundled; assumption.
  - intros Hin ->. apply Hllm, choose_missing; assumption.
  - apply Hve, choose_bundled; assumption.
  - apply Hve, choose_bundled; assumption.
  - apply Hve. subst. apply choose_missing; assumption.
  - apply Hve. subst. apply choose_missing; assumption.
Qed.

Lemma init_rejects_path_conflicts_witness :
  init Sample.full (u "bundle") (Some (u "other/llm")) None (-2) None ∅
  = Err AssertionError ∧
  init Sample.bare (u "bundle") None (Some (u "clip")) (-2) None ∅
  = Err AssertionError ∧
  init Sample.full (u "bundle") None (Some (u "clip")) (-2) None ∅
  = Err AssertionError ∧
  init Sample.bare (u "bundle") (Some (u "other/llm")) None (-2) None ∅
  = Err AssertionError.
Proof.
  assert (Hfull : u "llm" ∈ listdir Sample.full (u "bundle") ∧
                  u "visual_encoder" ∈ listdir Sample.full (u "bundle")).
  { split; apply (bool_decide_unpack _); vm_compute; exact I. }
  assert (Hbare : (u "llm" ∉ listdir Sample.bare (u "bundle")) ∧
                  (u "visual_encoder" ∉ listdir Sample.bare (u "bundle"))).
  { split; apply (bool_decide_unpack _); vm_compute; exact I. }
  split; [|split; [|split]].
  - destruct (init_rejects_path_conflicts Sample.full (u "bundle")
                (u "bundle") (Some (u "other/llm")) None (-2) None ∅
                eq_refl eq_refl) as (H & _).
    apply H; [apply Hfull | discriminate].
  - destruct (init_rejects_path_conflicts Sample.bare (u "bundle")
                (u "bundle") None (Some (u "clip")) (-2) None ∅
                eq_refl eq_refl) as (_ & H & _).
    apply H; [apply Hbare | reflexivity].
  - destruct (init_rejects_path_conflicts Sample.full (u "bundle")
                (u "bundle") None (Some (u "clip")) (-2) None ∅
                eq_refl eq_refl) as (_ & _ & H & _).
    apply H; [apply Hfull | discriminate | ].
    intros p _. split; reflexivity.
  - destruct (init_rejects_path_conflicts Sample.bare (u "bundle")
                (u "bundle") (Some (u "other/llm")) None (-2) None ∅
                eq_refl eq_refl) as (_ & _ & _ & H).
    apply H; [apply Hbare | reflexivity | ].
    intros p _. split; reflexivity.
Defined.

(** C5.  An adapter constructed without generation options has
    [max_new_tokens=100] and [do_sample=False] in its generation
    configuration; with options, every key the caller gives holds the
    caller's value and every other key holds its default. *)
Theorem gen_config_defaults_and_overrides (w : world) (llava_path : pystr)
    (llm_path visual_encoder_path : option pystr) (select_layer : Z)
    (template_name : option pystr) (kwargs : gmap pystr pyval)
    (a : adapter) :
  init w llava_path llm_path visual_encoder_path select_layer template_name
       kwargs = Ok a →
  (kwargs = ∅ →
   gen_config a !! u "max_new_tokens" = Some (PInt 100) ∧
   gen_config a !! u "do_sample" = Some (PBool false)) ∧
  (∀ k v, kwargs !! k = Some v → gen_config a !! k = Some v) ∧
  (∀ k, kwargs !! k = None →
        gen_config a !! k = kwargs_default (the_tokenizer a) !! k).
Proof.
  intros H. apply init_Ok in H as (dir & p & _ & _ & _ & _ & ->).
  split; [|split].
  - intros ->. rewrite make_gen_config_empty.
    auto using kwargs_default_max_new_tokens, kwargs_default_do_sample.
  - intros k v Hk. by rewrite make_gen_config_lookup, Hk.
  - intros k Hk. by rewrite make_gen_config_lookup, Hk.
Qed.

Lemma gen_config_defaults_and_overrides_witness :
  ∃ a b,
    init Sample.full (u "bundle") None None (-2) None ∅ = Ok a ∧
    gen_config a !! u "max_new_tokens" = Some (PInt 100) ∧
    gen_config a !! u "do_sample" = Some (PBool false) ∧
    init Sample.full (u "bundle") None None (-2) None
         {[ u "max_new_tokens" := PInt 512 ]} = Ok b ∧
    gen_config b !! u "max_new_tokens" = Some (PInt 512) ∧
    gen_config b !! u "do_sample" = Some (PBool false).
Proof.
  destruct (init Sample.full (u "bundle") None None (-2) None ∅)
    as [a|e] eqn:Ha; [|by vm_compute in Ha].
  destruct (init Sample.full (u "bundle") None None (-2) None
              {[ u "max_new_tokens" := PInt 512 ]})
    as [b|e] eqn:Hb; [|by vm_compute in Hb].
  exists a, b.
  destruct (gen_config_defaults_and_overrides _ _ _ _ _ _ _ _ Ha)
    as (Ha1 & _ & _).
  destruct (Ha1 eq_refl) as [Ha2 Ha3].
  destruct (gen_config_defaults_and_overrides _ _ _ _ _ _ _ _ Hb)
    as (_ & Hb1 & Hb2).
  split; [reflexivity|]. split; [exact Ha2|]. split; [exact Ha3|].
  split; [reflexivity|]. split.
  - apply Hb1. vm_compute. reflexivity.
  - rewrite Hb2 by (vm_compute; reflexivity).
    apply kwargs_default_do_sample.
Defined.

(** C10.  In the generation configuration of a constructed adapter,
    unless the caller overrides them, [eos_token_id] is the tokenizer's
    and [pad_token_id] is the tokenizer's when it has one and the
    tokenizer's [eos_token_id] when it has none.  The tokenizer is the
    one loaded from the language model's path. *)
Theorem gen_config_pad_falls_back_to_eos (w : world) (llava_path : pystr)
    (llm_path visual_encoder_path : option pystr) (select_layer : Z)
    (template_name : option pystr) (kwargs : gmap pystr pyval)
    (a : adapter) :
  init w llava_path llm_path visual_encoder_path select_layer template_name
       kwargs = Ok a →
  kwargs !! u "eos_token_id" = None →
  kwargs !! u "pad_token_id" = None →
  let t := the_tokenizer a in
  (∃ dir p, resolve w llava_path = Ok dir ∧
            choose w dir (u "llm") llm_path = Ok p ∧
            tokenizer_from_pretrained w p = Ok t) ∧
  gen_config a !! u "eos_token_id" = Some (of_optint (eos_token_id t)) ∧
  (∀ p, pad_token_id t = Some p →
        gen_config a !! u "pad_token_id" = Some (PInt p)) ∧
  (pad_token_id t = None →
   gen_config a !! u "pad_token_id" = Some (of_optint (eos_token_id t))).
Proof.
  intros H Heos Hpad t.
  apply init_Ok in H as (dir & p & Hdir & Hp & Ht & _ & ->).
  split; [by exists dir, p|].
  rewrite !make_gen_config_lookup, Heos, Hpad.
  rewrite kwargs_default_eos, kwargs_default_pad.
  split; [done|]. split.
  - intros q Hq. fold t. by rewrite Hq.
  - intros Hq. fold t. by rewrite Hq.
Qed.

Lemma gen_config_pad_falls_back_to_eos_witness :
  ∃ a b,
    init Sample.full (u "bundle") None None (-2) None ∅ = Ok a ∧
    gen_config a !! u "eos_token_id" = Some (PInt 2) ∧
    gen_config a !! u "pad_token_id" = Some (PInt 2) ∧
    init (Sample.machine [u "llm"; u "visual_encoder"] Sample.padded_tok)
         (u "bundle") None None (-2) None ∅ = Ok b ∧
    gen_config b !! u "eos_token_id" = Some (PInt 2) ∧
    gen_config b !! u "pad_token_id" = Some (PInt 0).
Proof.
  destruct (init Sample.full (u "bundle") None None (-2) None ∅)
    as [a|e] eqn:Ha; [|by vm_compute in Ha].
  destruct (init (Sample.machine [u "llm"; u "visual_encoder"]
                    Sample.padded_tok) (u "bundle") None None (-2) None ∅)
    as [b|e] eqn:Hb; [|by vm_compute in Hb].
  exists a, b.
  destruct (gen_config_pad_falls_back_to_eos _ _ _ _ _ _ _ _ Ha
              eq_refl eq_refl) as ((? & p & _ & _ & Hta) & Ha1 & _ & Ha2).
  destruct (gen_config_pad_falls_back_to_eos _ _ _ _ _ _ _ _ Hb
              eq_refl eq_refl) as ((? & q & _ & _ & Htb) & Hb1 & Hb2 & _).
  injection Hta as Hta. injection Htb as Htb.
  rewrite <- Hta in Ha1, Ha2. rewrite <- Htb in Hb1, Hb2.
  split; [reflexivity|]. split; [exact Ha1|].
  split; [exact (Ha2 eq_refl)|].
  split; [reflexivity|]. split; [exact Hb1|]. exact (Hb2 0%Z eq_refl).
Defined.

(** ** Splitting and counting *)

Section Split.

Context (sep : pystr).

Lemma starts_with_prefix (s : pystr) :
  starts_with sep s = true ↔ ∃ b, s = sep ++ b.
Proof.
  revert s. induction sep as [|a sep' IH]; intros s; simpl.
  - split; eauto.
  - destruct s as [|c s'].
    + split; [discriminate | intros [b Hb]; discriminate].
    + rewrite andb_true_iff, N.eqb_eq, IH. split.
      * intros [-> [b ->]]. eauto.
      * intros [b Hb]. injection Hb as -> ->. eauto.
Qed.

(** [split] returns one segment more than [count] finds matches. *)
Lemma split_go_length (skip : nat) (cur s : pystr) :
  length (split_go sep skip cur s) = S (count_go sep skip s).
Proof.
  revert skip cur. induction s as [|c s' IH]; intros skip cur; [done|].
  destruct skip as [|k].
  - cbn [split_go count_go]. destruct (starts_with sep (c :: s')).
    + simpl. by rewrite IH.
    + apply IH.
  - cbn [split_go count_go]. apply IH.
Qed.

(** Skipping is dropping. *)
Lemma count_go_drop (skip : nat) (s : pystr) :
  count_go sep skip s = count_go sep 0 (drop skip s).
Proof.
  revert skip. induction s as [|c s' IH]; intros [|k]; try done.
  cbn [count_go]. rewrite IH. by rewrite skipn_cons.
Qed.

Lemma pycount_match_cons (c : N) (s : pystr) :
  sep ≠ [] → starts_with sep (c :: s) = true →
  pycount sep (c :: s) = S (pycount sep (drop (length sep) (c :: s))).
Proof.
  intros Hsep Hm. unfold pycount. cbn [count_go]. rewrite Hm. f_equal.
  rewrite count_go_drop. f_equal.
  destruct (length sep) as [|n] eqn:Hn.
  - by apply length_zero_iff_nil in Hn.
  - simpl. by rewrite Nat.sub_0_r.
Qed.

Lemma pycount_match (b : pystr) :
  sep ≠ [] → pycount sep (sep ++ b) = S (pycount sep b).
Proof.
  intros Hsep.
  assert (Hm : starts_with sep (sep ++ b) = true)
    by (apply starts_with_prefix; eauto).
  destruct (sep ++ b) as [|c s] eqn:E.
  - by apply app_eq_nil in E as [? _].
  - rewrite pycount_match_cons by done. f_equal.
    by rewrite <- E, drop_app_length.
Qed.

Lemma pycount_no_match (c : N) (s : pystr) :
  starts_with sep (c :: s) = false →
  pycount sep (c :: s) = pycount sep s.
Proof. unfold pycount. cbn [count_go]. by intros ->. Qed.

(** The scan stops at the leftmost match. *)
Lemma pycount_first (a b : pystr) :
  sep ≠ [] →
  ∃ a' b', a ++ sep ++ b = a' ++ sep ++ b' ∧
           (length a' ≤ length a)%nat ∧
           pycount sep (a ++ sep ++ b) = S (pycount sep b').
Proof.
  intros Hsep. induction a as [|c a0 IH].
  - exists [], b. split; [done|]. split; [done|]. by apply pycount_match.
  - destruct (starts_with sep ((c :: a0) ++ sep ++ b)) eqn:Hm.
    + apply starts_with_prefix in Hm as [b' Hb'].
      exists [], b'. split; [done|]. split; [simpl; lia|].
      rewrite Hb'. by apply pycount_match.
    + destruct IH as (a' & b' & Heq & Hlen & Hcount).
      exists (c :: a'), b'. split; [simpl; by rewrite Heq|].
      split; [simpl; lia|].
      change ((c :: a0) ++ sep ++ b) with (c :: (a0 ++ sep ++ b)) in *.
      by rewrite pycount_no_match.
Qed.

(** No match is counted exactly when [sep] does not occur. *)
Lemma pycount_zero (s : pystr) :
  sep ≠ [] → pycount sep s = 0%nat ↔ ¬ ∃ a b, s = a ++ sep ++ b.
Proof.
  intros Hsep. split.
  - intros H0 (a & b & ->).
    destruct (pycount_first a b Hsep) as (? & ? & _ & _ & H1). congruence.
  - induction s as [|c s' IH]; intros Hno; [done|].
    destruct (starts_with sep (c :: s')) eqn:Hm.
    + apply starts_with_prefix in Hm as [b Hb].
      destruct Hno. exists [], b. done.
    + rewrite pycount_no_match by done. apply IH.
      intros (a & b & ->). apply Hno. by exists (c :: a), b.
Qed.

Lemma pycount_pos (s : pystr) :
  sep ≠ [] → pycount sep s ≠ 0%nat → ∃ a b, s = a ++ sep ++ b.
Proof.
  intros Hsep. induction s as [|c s' IH]; intros Hpos; [done|].
  destruct (starts_with sep (c :: s')) eqn:Hm.
  - apply starts_with_prefix in Hm as [b Hb]. by exists [], b.
  - rewrite pycount_no_match in Hpos by done.
    destruct (IH Hpos) as (a & b & ->). by exists (c :: a), b.
Qed.

(** Two matches or more are counted exactly when [sep] occurs twice,
    the occurrences apart. *)
Lemma pycount_many (s : pystr) :
  sep ≠ [] →
  (2 ≤ pycount sep s)%nat ↔ ∃ a b c, s = a ++ sep ++ b ++ sep ++ c.
Proof.
  intros Hsep. split.
  - intros H2.
    destruct (decide (pycount sep s = 0%nat)) as [H0|H0]; [lia|].
    destruct (pycount_pos s Hsep H0) as (a & b & ->).
    destruct (pycount_first a b Hsep) as (a' & b' & Heq & _ & Hc).
    assert (pycount sep b' ≠ 0%nat) as H1 by lia.
    destruct (pycount_pos b' Hsep H1) as (x & y & ->).
    exists a', x, y. by rewrite Heq.
  - intros (a & b & c & ->).
    destruct (pycount_first a (b ++ sep ++ c) Hsep)
      as (a' & b' & Heq & Hlen & ->).
    assert (pycount sep b' ≠ 0%nat); [|lia].
    rewrite pycount_zero by done. intros Hno. apply Hno.
    assert (b' = drop (length a' + length sep) (a ++ sep ++ b ++ sep ++ c))
      as ->.
    { rewrite Heq, app_assoc, <- length_app. by rewrite drop_app_length. }
    exists (drop (length a' + length sep) (a ++ sep) ++ b), c.
    rewrite (app_assoc a sep), drop_app_le by (rewrite length_app; lia).
    by rewrite <- !app_assoc.
Qed.

End Split.

(** ** Generation *)

Lemma pysplit_Ok (sep s : pystr) :
  sep ≠ [] → pysplit sep s = Ok (split_go sep 0 [] s).
Proof. by destruct sep. Qed.

Lemma encode_chunks_length (t : tokenizer) (chunks : list pystr) :
  length (encode_chunks t chunks) = length chunks.
Proof. apply length_imap. Qed.

(** The assertion of line 197 in terms of [count]. *)
Lemma tokenize_count (rt : runtime) (a : adapter) (prompt : pystr) :
  DEFAULT_IMAGE_TOKEN rt ≠ [] →
  tokenize rt a prompt =
  if bool_decide
       (pycount (DEFAULT_IMAGE_TOKEN rt) (compose rt a prompt) = 1%nat)
  then Ok (splice (IMAGE_TOKEN_INDEX rt)
             (encode_chunks (the_tokenizer a)
                (split_go (DEFAULT_IMAGE_TOKEN rt) 0 [] (compose rt a prompt))))
  else Err AssertionError.
Proof.
  intros Hsep. unfold tokenize. rewrite pysplit_Ok, bind_Ok_l by done.
  rewrite encode_chunks_length, split_go_length. fold (pycount
    (DEFAULT_IMAGE_TOKEN rt) (compose rt a prompt)).
  destruct (decide (pycount (DEFAULT_IMAGE_TOKEN rt) (compose rt a prompt)
                    = 1%nat)) as [H1|H1].
  - rewrite !bool_decide_eq_true_2 by (done || lia). reflexivity.
  - rewrite !bool_decide_eq_false_2 by (done || lia). reflexivity.
Qed.

(** C4.  When the text given to the tokenizer, the placeholder, a
    newline and the prompt, wrapped in the template if there is one,
    does not contain the placeholder or contains it twice, the
    tokenization fails with an assertion error and so does [generate]
    once the image is encoded; [generate] returns nothing in any case.
    The tokenization passes exactly when the split has two segments. *)
Theorem generate_asserts_one_placeholder (rt : runtime) (a : adapter)
    (image_path prompt : pystr) :
  let tok := DEFAULT_IMAGE_TOKEN rt in
  let text := compose rt a prompt in
  tok ≠ [] →
  ((¬ (∃ x y, text = x ++ tok ++ y)) ∨
   (∃ x y z, text = x ++ tok ++ y ++ tok ++ z) →
   tokenize rt a prompt = Err AssertionError ∧
   is_ok (generate rt a image_path prompt) = false ∧
   (is_ok (encode_image rt a image_path) = true →
    generate rt a image_path prompt = Err AssertionError)) ∧
  (is_ok (tokenize rt a prompt) = true ↔
   length (split_go tok 0 [] text) = 2%nat).
Proof.
  intros tok text Hsep. split.
  - intros Hbad.
    assert (Hc : pycount tok text ≠ 1%nat).
    { destruct Hbad as [Hzero|Hmany].
      - apply pycount_zero in Hzero; [lia | done].
      - apply pycount_many in Hmany; [lia | done]. }
    assert (Ht : tokenize rt a prompt = Err AssertionError).
    { rewrite tokenize_count by done. by rewrite bool_decide_eq_false_2. }
    split; [done|]. unfold generate. rewrite Ht.
    destruct (encode_image rt a image_path); by split.
  - rewrite tokenize_count, split_go_length by done.
    fold (pycount tok text).
    destruct (decide (pycount tok text = 1%nat)) as [H1|H1].
    + rewrite bool_decide_eq_true_2 by done. simpl. split; [lia|done].
    + rewrite bool_decide_eq_false_2 by done. simpl. split; [done|lia].
Qed.

Lemma generate_asserts_one_placeholder_witness :
  generate Sample.xtuner (Sample.plain (Some Sample.deaf)) (u "7.jpg")
           (u "hi") = Err AssertionError ∧
  generate Sample.xtuner (Sample.plain None) (u "7.jpg") (u "hi <image>")
  = Err AssertionError.
Proof.
  split.
  - destruct (generate_asserts_one_placeholder Sample.xtuner
                (Sample.plain (Some Sample.deaf)) (u "7.jpg") (u "hi"))
      as [H _]; [discriminate|].
    apply H; [|reflexivity]. left.
    apply pycount_zero; [discriminate | vm_compute; reflexivity].
  - destruct (generate_asserts_one_placeholder Sample.xtuner
                (Sample.plain None) (u "7.jpg") (u "hi <image>"))
      as [H _]; [discriminate|].
    apply H; [|reflexivity]. right.
    exists [], (nl ++ u "hi "), []. vm_compute. reflexivity.
Defined.

(** ** The prompt record *)

Section BuildPrompt.

Context (ds : datasets) (line : row) (dataset : option pystr).

(** [build_prompt] returns exactly when the table has the dataset, the
    images are cached and the text is assembled. *)
Lemma build_prompt_Ok (st st' : store) (r : prompt_record) :
  build_prompt ds line dataset st = (Ok r, st') ↔
  ∃ root,
    img_root_map ds dataset = Some root ∧
    materialize ds (osp_join (u "images") root) line
      (makedirs (osp_join (u "images") root) st)
    = (Ok (prompt_image r), st') ∧
    build_text ds line dataset = Ok (prompt_text r).
Proof.
  unfold build_prompt. split.
  - destruct (img_root_map ds dataset) as [root|]; [|discriminate].
    destruct (materialize _ _ _ _) as [[tgt|e] st1] eqn:Hm; [|discriminate].
    destruct (build_text ds line dataset) as [t|e]; [|discriminate].
    intros [= <- <-]. exists root. simpl. auto.
  - intros (root & -> & -> & ->). by destruct r.
Qed.

Lemma build_text_plain :
  (dataset = None ∨
   ∃ d, dataset = Some d ∧ DATASET_TYPE ds d ≠ u "multi-choice") →
  build_text ds line dataset = getitem (col line "question").
Proof.
  intros [->|(d & -> & Hd)]; [done|].
  unfold build_text. by rewrite bool_decide_eq_false_2.
Qed.

Lemma build_text_multi_choice (d : pystr) :
  dataset = Some d → DATASET_TYPE ds d = u "multi-choice" →
  build_text ds line dataset =
  assembled_prompt line ≫= λ prompt, Ok (SStr (add_instruction prompt)).
Proof.
  intros -> Hd. unfold build_text. by rewrite bool_decide_eq_true_2.
Qed.

End BuildPrompt.

Lemma getitem_Ok {A} (o : option A) (a : A) : getitem o = Ok a ↔ o = Some a.
Proof. destruct o; simpl; split; congruence. Qed.

(** C8.  Without a dataset, or with one whose type is not
    ['multi-choice'], the text of the prompt record is the row's
    ['question'] as it stands: every record [build_prompt] returns has
    it, and [build_prompt] returns it whenever the table knows the
    dataset, the images are cached and the row has a question. *)
Theorem plain_dataset_keeps_question (ds : datasets) (line : row)
    (dataset : option pystr) (st : store) :
  (dataset = None ∨
   ∃ d, dataset = Some d ∧ DATASET_TYPE ds d ≠ u "multi-choice") →
  (∀ r st', build_prompt ds line dataset st = (Ok r, st') →
            col line "question" = Some (prompt_text r)) ∧
  (∀ root tgt st' q,
     img_root_map ds dataset = Some root →
     materialize ds (osp_join (u "images") root) line
       (makedirs (osp_join (u "images") root) st) = (Ok tgt, st') →
     col line "question" = Some q →
     build_prompt ds line dataset st
     = (Ok {| prompt_image := tgt; prompt_text := q |}, st')).
Proof.
  intros Hplain. split.
  - intros r st' H. apply build_prompt_Ok in H as (root & _ & _ & Ht).
    rewrite build_text_plain in Ht by done. by apply getitem_Ok.
  - intros root tgt st' q Hroot Himg Hq. apply build_prompt_Ok.
    exists root. split; [done|]. split; [done|].
    rewrite build_text_plain by done. by apply getitem_Ok.
Qed.

Lemma plain_dataset_keeps_question_witness :
  ∃ tgt st',
    build_prompt Sample.tables Sample.pair (Some (u "MME"))
      Sample.empty_disk
    = (Ok {| prompt_image := tgt; prompt_text := SStr (u "Same?") |}, st').
Proof.
  destruct (materialize Sample.tables (osp_join (u "images") (u "MME"))
              Sample.pair
              (makedirs (osp_join (u "images") (u "MME")) Sample.empty_disk))
    as [[tgt|e] st'] eqn:Himg; [|by vm_compute in Himg].
  exists tgt, st'.
  refine (proj2 (plain_dataset_keeps_question Sample.tables Sample.pair
                   (Some (u "MME")) Sample.empty_disk _)
            (u "MME") tgt st' (SStr (u "Same?")) eq_refl Himg eq_refl).
  right. exists (u "MME"). split; [reflexivity|].
  vm_compute. discriminate.
Defined.

(** C2.  For a multi-choice dataset and a row whose question is "What
    color is the sky?", whose options are A "Blue" and B "Green" and
    which has no hint and no C, D or E, the text of the prompt record
    is the question, the header, the two option lines, an empty line
    and the English instruction: every record [build_prompt] returns
    has it, and [build_prompt] returns it whenever the table knows the
    dataset and the images are cached. *)
Theorem sky_prompt_text (ds : datasets) (line : row) (d : pystr)
    (st : store) :
  DATASET_TYPE ds d = u "multi-choice" →
  col line "question" = Some (SStr (u "What color is the sky?")) →
  col line "A" = Some (SStr (u "Blue")) →
  col line "B" = Some (SStr (u "Green")) →
  col line "hint" = None →
  col line "C" = None → col line "D" = None → col line "E" = None →
  let expected :=
    SStr (u "What color is the sky? There are several options:" ++ nl ++
          u "A. Blue" ++ nl ++
          u "B. Green" ++ nl ++
          nl ++
          u "Answer with the option's letter from the given choices directly.")
  in
  (∀ r st', build_prompt ds line (Some d) st = (Ok r, st') →
            prompt_text r = expected) ∧
  (∀ root tgt st',
     img_root_map ds (Some d) = Some root →
     materialize ds (osp_join (u "images") root) line
       (makedirs (osp_join (u "images") root) st) = (Ok tgt, st') →
     build_prompt ds line (Some d) st
     = (Ok {| prompt_image := tgt; prompt_text := expected |}, st')).
Proof.
  intros Hd Hq HA HB Hhint HC HD HE expected.
  assert (Ht : build_text ds line (Some d) = Ok expected).
  { rewrite (build_text_multi_choice ds line (Some d) d) by done.
    unfold assembled_prompt, hinted_question, options_prompt, options.
    rewrite Hq, Hhint. unfold option_candidate. simpl omap.
    rewrite HA, HB, HC, HD, HE. vm_compute. reflexivity. }
  split.
  - intros r st' H. apply build_prompt_Ok in H as (_ & _ & _ & H).
    congruence.
  - intros root tgt st' Hroot Himg. apply build_prompt_Ok.
    exists root. auto.
Qed.

Lemma sky_prompt_text_witness :
  ∃ st',
    build_prompt Sample.tables Sample.sky (Some (u "MMBench"))
      Sample.empty_disk
    = (Ok {| prompt_image := Path (u "images/MMBench/7.jpg");
             prompt_text :=
               SStr (u "What color is the sky? There are several options:"
                     ++ nl ++ u "A. Blue" ++ nl ++ u "B. Green" ++ nl ++ nl ++
                     u "Answer with the option's letter from the given choices directly.")
          |}, st').
Proof.
  destruct (materialize Sample.tables (osp_join (u "images") (u "MMBench"))
              Sample.sky
              (makedirs (osp_join (u "images") (u "MMBench"))
                 Sample.empty_disk))
    as [[tgt|e] st'] eqn:Himg; [|by vm_compute in Himg].
  exists st'.
  assert (tgt = Path (u "images/MMBench/7.jpg")) as <-.
  { vm_compute in Himg. injection Himg as <- _. reflexivity. }
  exact (proj2 (sky_prompt_text Sample.tables Sample.sky (u "MMBench")
                  Sample.empty_disk eq_refl eq_refl eq_refl eq_refl eq_refl
                  eq_refl eq_refl eq_refl)
           (u "MMBench") tgt st' eq_refl Himg).
Defined.

Lemma cn_string_true (s : pystr) :
  cn_string s = true ↔ ∃ c, c ∈ s ∧ is_cjk c = true.
Proof.
  unfold cn_string. rewrite existsb_exists.
  split; intros (c & Hc & Hcjk); exists c; split; try done;
    by apply list_elem_of_In.
Qed.

Lemma cn_string_false (s : pystr) :
  cn_string s = false ↔ ∀ c, c ∈ s → is_cjk c = false.
Proof.
  split.
  - intros Hs c Hc. destruct (is_cjk c) eqn:E; [|done].
    assert (cn_string s = true) by (apply cn_string_true; eauto).
    congruence.
  - intros Hall. destruct (cn_string s) eqn:E; [|done].
    apply cn_string_true in E as (c & Hc & Hcjk).
    rewrite (Hall c Hc) in Hcjk. discriminate.
Qed.

Lemma is_cjk_range (c : N) : is_cjk c = true ↔ 0x4e00 ≤ c ≤ 0x9fff.
Proof. unfold is_cjk. rewrite andb_true_iff, !N.leb_le. done. Qed.

(** C6.  For a multi-choice dataset, the text of the prompt record is
    the assembled prompt (question, hint and option block), a newline
    and one instruction: the Chinese one when the assembled prompt has
    a character of U+4E00..U+9FFF, the English one when it has none. *)
Theorem instruction_follows_language (ds : datasets) (line : row)
    (d : pystr) (st st' : store) (r : prompt_record) :
  DATASET_TYPE ds d = u "multi-choice" →
  build_prompt ds line (Some d) st = (Ok r, st') →
  ∃ assembled,
    assembled_prompt line = Ok assembled ∧
    ((∃ c, c ∈ assembled ∧ 0x4e00 ≤ c ≤ 0x9fff) →
     prompt_text r = SStr (assembled ++ nl ++ zh_instruction)) ∧
    ((∀ c, c ∈ assembled → ¬ (0x4e00 ≤ c ≤ 0x9fff)) →
     prompt_text r = SStr (assembled ++ nl ++ en_instruction)) ∧
    (prompt_text r = SStr (assembled ++ nl ++ zh_instruction) ∨
     prompt_text r = SStr (assembled ++ nl ++ en_instruction)) ∧
    zh_instruction ≠ en_instruction.
Proof.
  intros Hd H. apply build_prompt_Ok in H as (_ & _ & _ & Ht).
  rewrite (build_text_multi_choice ds line (Some d) d) in Ht by done.
  apply bind_Ok in Ht as (assembled & Ha & [= Ht]).
  exists assembled. split; [done|]. rewrite <- Ht. unfold add_instruction.
  split; [|split; [|split]].
  - intros (c & Hc & Hcjk).
    assert (cn_string assembled = true) as ->; [|done].
    apply cn_string_true. exists c. by rewrite is_cjk_range.
  - intros Hnone.
    assert (cn_string assembled = false) as ->; [|done].
    apply cn_string_false. intros c Hc.
    destruct (is_cjk c) eqn:E; [|done].
    apply is_cjk_range in E. by destruct (Hnone c Hc).
  - destruct (cn_string assembled); auto.
  - discriminate.
Qed.

Lemma instruction_follows_language_witness :
  ∃ r_zh r_en st1 st2,
    build_prompt Sample.tables Sample.sky_zh (Some (u "MMBench"))
      Sample.empty_disk = (Ok r_zh, st1) ∧
    prompt_text r_zh
    = SStr ([0x5929; 0x7a7a; 0x662f; 0x4ec0; 0x4e48; 0x989c; 0x8272; 0xff1f]
            ++ u " There are several options:" ++ nl ++
            u "A. " ++ [0x84dd] ++ nl ++ u "B. " ++ [0x7eff] ++ nl ++
            nl ++ zh_instruction) ∧
    build_prompt Sample.tables Sample.sky (Some (u "MMBench"))
      Sample.empty_disk = (Ok r_en, st2) ∧
    prompt_text r_en
    = SStr (u "What color is the sky? There are several options:" ++ nl ++
            u "A. Blue" ++ nl ++ u "B. Green" ++ nl ++ nl ++ en_instruction).
Proof.
  destruct (build_prompt Sample.tables Sample.sky_zh (Some (u "MMBench"))
              Sample.empty_disk) as [[r_zh|e] st1] eqn:Hzh;
    [|by vm_compute in Hzh].
  destruct (build_prompt Sample.tables Sample.sky (Some (u "MMBench"))
              Sample.empty_disk) as [[r_en|e] st2] eqn:Hen;
    [|by vm_compute in Hen].
  exists r_zh, r_en, st1, st2.
  destruct (instruction_follows_language Sample.tables Sample.sky_zh
              (u "MMBench") _ _ _ eq_refl Hzh)
    as (a_zh & Ha_zh & Hcjk & _).
  destruct (instruction_follows_language Sample.tables Sample.sky
              (u "MMBench") _ _ _ eq_refl Hen)
    as (a_en & Ha_en & _ & Hascii & _).
  vm_compute in Ha_zh. injection Ha_zh as <-.
  vm_compute in Ha_en. injection Ha_en as <-.
  split; [reflexivity|]. split.
  - rewrite Hcjk; [reflexivity|].
    exists 0x5929. split; [|lia]. apply list_elem_of_here.
  - split; [reflexivity|].
    rewrite Hascii; [reflexivity|].
    intros c Hc. apply list_elem_of_In in Hc.
    enough (c < 0x4e00) by lia.
    repeat (destruct Hc as [<-|Hc]; [reflexivity|]). destruct Hc.
Defined.

(** ** The option block *)

Lemma fold_add_option (l : list (string * scalar)) (acc : pystr) :
  fold_left add_option l acc = acc ++ concat (map option_line l).
Proof.
  revert acc. induction l as [|kv l IH]; intros acc; simpl.
  - by rewrite app_nil_r.
  - rewrite IH. unfold add_option, option_line. by rewrite <- !app_assoc.
Qed.

Lemma options_prompt_lines (line : row) :
  options_prompt line
  = options_header ++ concat (map option_line (options line)).
Proof. apply fold_add_option. Qed.

Lemma options_elem_of (line : row) (k : string) (v : scalar) :
  (k, v) ∈ options line ↔
  k ∈ option_candidate ∧ col line k = Some v ∧ pd_isna v = false.
Proof.
  unfold options. rewrite list_elem_of_omap. split.
  - intros (cand & Hin & Hpick).
    destruct (col line cand) as [x|] eqn:Hx; [|done].
    destruct (pd_isna x) eqn:Hna; [done|].
    injection Hpick as <- <-. done.
  - intros (Hin & Hcol & Hna). exists k. by rewrite Hcol, Hna.
Qed.

Lemma options_keys_sublist (line : row) :
  sublist (options line).*1 option_candidate.
Proof.
  unfold options. induction option_candidate as [|cand l IH]; simpl.
  - constructor.
  - destruct (col line cand) as [x|]; [destruct (pd_isna x)|]; simpl;
      by constructor.
Qed.

Lemma assoc_elem_of (k : pystr) (v : scalar) (l : list (pystr * scalar)) :
  NoDup l.*1 → assoc k l = Some v ↔ (k, v) ∈ l.
Proof.
  induction l as [|[k' v'] l IH]; simpl; intros Hnd.
  - split; [done | by intros ?%elem_of_nil].
  - apply NoDup_cons in Hnd as [Hk' Hnd]. rewrite elem_of_cons.
    destruct (decide (k = k')) as [->|Hne].
    + rewrite bool_decide_eq_true_2 by done. split.
      * intros [= ->]. by left.
      * intros [[= ->]|Hin]; [done|].
        destruct Hk'. apply list_elem_of_fmap. by exists (k', v).
    + rewrite bool_decide_eq_false_2 by done. rewrite IH by done.
      split; [by right | intros [[= ? ?]|?]; done].
Qed.

(** The order of the columns of a table does not change what a column
    name finds. *)
Lemma assoc_Permutation (k : pystr) (l l' : list (pystr * scalar)) :
  NoDup l.*1 → l' ≡ₚ l → assoc k l' = assoc k l.
Proof.
  intros Hnd Hp.
  assert (Hnd' : NoDup l'.*1) by (by rewrite Hp).
  apply option_eq. intros v.
  rewrite !assoc_elem_of by done. by rewrite Hp.
Qed.

Lemma options_Permutation (line line' : row) :
  NoDup (cols line).*1 → cols line' ≡ₚ cols line →
  options line' = options line.
Proof.
  intros Hnd Hp.
  assert (Hcol : ∀ cand, col line' cand = col line cand).
  { intros cand. unfold col. by apply assoc_Permutation. }
  unfold options. induction option_candidate as [|cand l IH]; [done|].
  csimpl. by rewrite Hcol, IH.
Qed.

Lemma build_text_Permutation (ds : datasets) (line line' : row)
    (dataset : option pystr) :
  NoDup (cols line).*1 → cols line' ≡ₚ cols line →
  build_text ds line' dataset = build_text ds line dataset.
Proof.
  intros Hnd Hp.
  assert (Hcol : ∀ cand, col line' cand = col line cand).
  { intros cand. unfold col. by apply assoc_Permutation. }
  unfold build_text, assembled_prompt, hinted_question, options_prompt.
  by rewrite !Hcol, (options_Permutation line line').
Qed.

Lemma assembled_prompt_Ok (line : row) (assembled : pystr) :
  assembled_prompt line = Ok assembled →
  ∃ q, hinted_question line = Ok (SStr q) ∧
       assembled = q ++ u " " ++ options_prompt line.
Proof.
  unfold assembled_prompt. intros H.
  apply bind_Ok in H as (question & Hq & H).
  apply bind_Ok in H as (q & Hs & [= <-]).
  destruct question; try discriminate. injection Hs as ->. eauto.
Qed.

(** C3.  For a multi-choice dataset, the text of the prompt record is
    the question, a space, the option block and the instruction.  The
    option block is the header and one line "letter. text" for each
    of the options; the options are the letters of A to E whose
    column the row has with a value that is not missing, each once and
    in the order A to E, and reordering the columns of the row changes
    neither the options nor the text.  With A, B and C present and D
    and E missing the block has the three lines of A, B and C. *)
Theorem option_block_in_letter_order (ds : datasets) (line : row)
    (d : pystr) (st st' : store) (r : prompt_record) :
  DATASET_TYPE ds d = u "multi-choice" →
  build_prompt ds line (Some d) st = (Ok r, st') →
  let block := options_header ++ concat (map option_line (options line)) in
  (∃ q, hinted_question line = Ok (SStr q) ∧
        prompt_text r = SStr (add_instruction (q ++ u " " ++ block))) ∧
  (∀ k v, (k, v) ∈ options line ↔
          k ∈ option_candidate ∧ col line k = Some v ∧ pd_isna v = false) ∧
  sublist (options line).*1 ["A"; "B"; "C"; "D"; "E"]%string ∧
  (∀ line', NoDup (cols line).*1 → cols line' ≡ₚ cols line →
            options line' = options line ∧
            build_text ds line' (Some d) = Ok (prompt_text r)) ∧
  (∀ a b c,
     col line "A" = Some a → pd_isna a = false →
     col line "B" = Some b → pd_isna b = false →
     col line "C" = Some c → pd_isna c = false →
     missing line "D" → missing line "E" →
     block = u "There are several options:" ++ nl ++
             u "A. " ++ py_str a ++ nl ++
             u "B. " ++ py_str b ++ nl ++
             u "C. " ++ py_str c ++ nl).
Proof.
  intros Hd H block. apply build_prompt_Ok in H as (_ & _ & _ & Ht).
  split; [|split; [|split; [|split]]].
  - rewrite (build_text_multi_choice ds line (Some d) d) in Ht by done.
    apply bind_Ok in Ht as (assembled & Ha & [= Ht]).
    apply assembled_prompt_Ok in Ha as (q & Hq & ->).
    exists q. split; [done|]. rewrite <- Ht. unfold block.
    by rewrite options_prompt_lines.
  - apply options_elem_of.
  - apply options_keys_sublist.
  - intros line' Hnd Hp. split; [by apply options_Permutation|].
    by rewrite (build_text_Permutation ds line line').
  - intros a b c HA Ha HB Hb HC Hc HD HE. unfold block, options.
    unfold option_candidate. csimpl. rewrite HA, Ha, HB, Hb, HC, Hc.
    assert (∀ k, missing line k →
                 match col line k with
                 | Some v => if pd_isna v then None else Some (k, v)
                 | None => None
                 end = None) as Hmiss.
    { intros k Hk. destruct (col line k) as [v|] eqn:Hv; [|done].
      by rewrite (Hk v). }
    rewrite (Hmiss "D"%string HD), (Hmiss "E"%string HE). csimpl.
    unfold option_line, options_header. simpl fst. simpl snd.
    by rewrite <- !app_assoc, app_nil_r.
Qed.

Lemma option_block_in_letter_order_witness :
  ∃ r st',
    build_prompt Sample.tables Sample.shuffled (Some (u "MMBench"))
      Sample.empty_disk = (Ok r, st') ∧
    options Sample.shuffled
    = [("A"%string, SInt 1); ("B"%string, SStr (u "two"));
       ("C"%string, SStr (u "three"))] ∧
    prompt_text r
    = SStr (u "Count. How many? There are several options:" ++ nl ++
            u "A. 1" ++ nl ++ u "B. two" ++ nl ++ u "C. three" ++ nl ++
            nl ++ en_instruction).
Proof.
  destruct (build_prompt Sample.tables Sample.shuffled (Some (u "MMBench"))
              Sample.empty_disk) as [[r|e] st'] eqn:H;
    [|by vm_compute in H].
  exists r, st'. split; [reflexivity|]. split; [reflexivity|].
  destruct (option_block_in_letter_order Sample.tables Sample.shuffled
              (u "MMBench") _ _ _ eq_refl H)
    as ((q & Hq & Htext) & _ & _ & _ & Hblock).
  rewrite Htext.
  rewrite (Hblock (SInt 1) (SStr (u "two")) (SStr (u "three")))
    by (reflexivity || (intros v Hv; vm_compute in Hv; by injection Hv as <-)
        || (intros v Hv; vm_compute in Hv; discriminate)).
  vm_compute in Hq. injection Hq as <-. reflexivity.
Defined.

(** ** The image cache *)

Section Cache.

Context (ds : datasets).

Lemma read_ok_files (s s' : store) (p : pystr) :
  files s' !! p = files s !! p → read_ok ds s' p = read_ok ds s p.
Proof. unfold read_ok. by intros ->. Qed.

Lemma preserves_refl (s : store) : preserves ds s s.
Proof. by intros p _. Qed.

Lemma preserves_trans (s1 s2 s3 : store) :
  preserves ds s1 s2 → preserves ds s2 s3 → preserves ds s1 s3.
Proof.
  intros H12 H23 p Hp. rewrite <- (H12 p Hp). apply H23.
  by rewrite (read_ok_files s1 s2) by (by apply H12).
Qed.

Lemma preserves_makedirs (d : pystr) (s : store) :
  preserves ds s (makedirs d s).
Proof. by intros p _. Qed.

Lemma read_ok_makedirs (d : pystr) (s : store) (p : pystr) :
  read_ok ds (makedirs d s) p = read_ok ds s p.
Proof. reflexivity. Qed.

(** One image: when the step passes, what it wrote, and that it wrote
    no file that [read_ok] accepted. *)
Lemma cache_image_trace (img path : pystr) (s s' : store)
    (res : result unit) :
  cache_image ds img path s = (res, s') →
  ∃ new, written s' = written s ++ new ∧
         (∀ p, read_ok ds s p = true → p ∉ new) ∧
         preserves ds s s'.
Proof.
  unfold cache_image, decode_base64_to_image_file.
  destruct (read_ok ds s path) eqn:Hok; simpl.
  - intros [= <- <-]. exists []. rewrite app_nil_r.
    split; [done|]. split; [|apply preserves_refl].
    intros p _. apply not_elem_of_nil.
  - destruct (decode_base64_to_image ds img) as [f|].
    + intros [= <- <-]. exists [path]. simpl. split; [done|]. split.
      * intros p Hp ->%list_elem_of_singleton. congruence.
      * intros p Hp. simpl. apply lookup_insert_ne. congruence.
    + intros [= <- <-]. exists []. rewrite app_nil_r.
      split; [done|]. split; [|apply preserves_refl].
      intros p _. apply not_elem_of_nil.
Qed.

Lemma cache_images_trace (img_root : pystr) (pairs : list (pystr * pystr))
    (s s' : store) (res : result (list pystr)) :
  cache_images ds img_root pairs s = (res, s') →
  ∃ new, written s' = written s ++ new ∧
         (∀ p, read_ok ds s p = true → p ∉ new) ∧
         preserves ds s s'.
Proof.
  revert s s' res. induction pairs as [|[img im_name] rest IH];
    intros s s' res; simpl.
  - intros [= <- <-]. exists []. rewrite app_nil_r.
    split; [done|]. split; [|apply preserves_refl].
    intros p _. apply not_elem_of_nil.
  - destruct (cache_image ds img (osp_join img_root im_name) s)
      as [[[]|e] s1] eqn:H1;
      apply cache_image_trace in H1 as (new1 & Hw1 & Hn1 & Hp1).
    + destruct (cache_images ds img_root rest s1) as [res2 s2] eqn:H2.
      apply IH in H2 as (new2 & Hw2 & Hn2 & Hp2).
      intros Heq.
      assert (s' = s2) as -> by (destruct res2; congruence).
      exists (new1 ++ new2). rewrite Hw2, Hw1, app_assoc.
      split; [done|]. split; [|by eapply preserves_trans].
      intros p Hp. rewrite elem_of_app. intros [Hin|Hin].
      * by apply (Hn1 p).
      * apply (Hn2 p); [|done].
        by rewrite (read_ok_files s s1) by (by apply Hp1).
    + intros [= <- <-]. by exists new1.
Qed.

(** A second pass over the same images, from a store that keeps the
    readable files of the first pass's final store, caches the same
    paths. *)
Lemma cache_image_again (img path : pystr) (s s1 t : store) :
  cache_image ds img path s = (Ok tt, s1) →
  preserves ds s t → read_ok ds t path = false →
  ∃ f, decode_base64_to_image ds img = Some f.
Proof.
  unfold cache_image, decode_base64_to_image_file.
  intros H Hpres Ht.
  destruct (read_ok ds s path) eqn:Hok; simpl in H.
  - rewrite (read_ok_files s t) in Ht by (by apply Hpres). congruence.
  - destruct (decode_base64_to_image ds img) as [f|]; [eauto|discriminate].
Qed.

Lemma cache_images_again (img_root : pystr) (pairs : list (pystr * pystr))
    (s s1 t : store) (tgt_path : list pystr) :
  cache_images ds img_root pairs s = (Ok tgt_path, s1) →
  preserves ds s1 t →
  ∃ t1, cache_images ds img_root pairs t = (Ok tgt_path, t1).
Proof.
  revert s s1 t tgt_path. induction pairs as [|[img im_name] rest IH];
    intros s s1 t tgt_path; simpl.
  - intros [= <- <-] _. eauto.
  - set (path := osp_join img_root im_name).
    destruct (cache_image ds img path s) as [[[]|e] sa] eqn:Ha;
      [|discriminate].
    destruct (cache_images ds img_root rest sa) as [[ps|e] sb] eqn:Hb;
      [|discriminate].
    intros [= <- <-] Hpres.
    pose proof Hb as Htr.
    apply cache_images_trace in Htr as (_ & _ & _ & Hab).
    assert (∃ ta, cache_image ds img path t = (Ok tt, ta) ∧
                  preserves ds sb ta) as (ta & Hta & Hpa).
    { unfold cache_image at 1.
      destruct (read_ok ds t path) eqn:Hok; simpl; [eauto|].
      destruct (cache_image_again img path s sa t Ha) as (f & Hf);
        [| done |].
      { pose proof Ha as Htr.
        apply cache_image_trace in Htr as (_ & _ & _ & Hsa).
        eapply preserves_trans; [done|]. by eapply preserves_trans. }
      unfold decode_base64_to_image_file. rewrite Hf.
      eexists. split; [done|].
      intros p Hp. simpl. rewrite lookup_insert_ne; [by apply Hpres|].
      intros <-.
      rewrite (read_ok_files sb t) in Hok by (by apply Hpres). congruence. }
    rewrite Hta.
    destruct (IH sa sb ta ps Hb Hpa) as (t1 & ->). eauto.
Qed.

Lemma cache_images_paths (img_root : pystr) (pairs : list (pystr * pystr))
    (s s' : store) (tgt_path : list pystr) :
  cache_images ds img_root pairs s = (Ok tgt_path, s') →
  tgt_path = map (osp_join img_root) pairs.*2.
Proof.
  revert s s' tgt_path. induction pairs as [|[img im_name] rest IH];
    intros s s' tgt_path; simpl.
  - by intros [= <- <-].
  - destruct (cache_image _ _ _ _) as [[[]|e] s1]; [|discriminate].
    destruct (cache_images ds img_root rest s1) as [[ps|e] s2] eqn:H2;
      [|discriminate].
    intros [= <- <-]. f_equal. by eapply IH.
Qed.

End Cache.



Section Materialize.

Context (ds : datasets) (img_root : pystr) (line : row).

Lemma materialize_trace (s s' : store) (res : result target) :
  materialize ds img_root line s = (res, s') →
  ∃ new, written s' = written s ++ new ∧
         (∀ p, read_ok ds s p = true → p ∉ new) ∧
         preserves ds s s'.
Proof.
  unfold materialize.
  assert (Hnone : ∀ e, (Err e, s) = (res, s') →
                       ∃ new, written s' = written s ++ new ∧
                              (∀ p, read_ok ds s p = true → p ∉ new) ∧
                              preserves ds s s').
  { intros e [= <- <-]. exists []. rewrite app_nil_r.
    split; [done|]. split; [|apply preserves_refl].
    intros p _. apply not_elem_of_nil. }
  destruct (image line) as [img|imgs].
  - destruct (col line "index") as [index|]; [|apply Hnone].
    destruct (cache_image _ _ _ _) as [[[]|e] s1] eqn:H1;
      apply cache_image_trace in H1; intros [= <- <-]; exact H1.
  - destruct (image_path line) as [names|]; [|apply Hnone].
    destruct (cache_images _ _ _ _) as [[ps|e] s1] eqn:H1;
      apply cache_images_trace in H1; intros [= <- <-]; exact H1.
Qed.

Lemma materialize_again (s s1 t : store) (tgt : target) :
  materialize ds img_root line s = (Ok tgt, s1) →
  preserves ds s1 t →
  ∃ t1, materialize ds img_root line t = (Ok tgt, t1).
Proof.
  unfold materialize. destruct (image line) as [img|imgs].
  - destruct (col line "index") as [index|]; [|discriminate].
    set (path := osp_join img_root (py_str index ++ u ".jpg")).
    destruct (cache_image ds img path s) as [[[]|e] sa] eqn:Ha;
      [|discriminate].
    intros [= <- <-] Hpres.
    unfold cache_image at 1.
    destruct (read_ok ds t path) eqn:Hok; simpl; [eauto|].
    destruct (cache_image_again ds img path s sa t Ha) as (f & Hf);
      [| done |].
    { pose proof Ha as Htr.
      apply cache_image_trace in Htr as (_ & _ & _ & Hsa).
      by eapply preserves_trans. }
    unfold decode_base64_to_image_file. rewrite Hf. eauto.
  - destruct (image_path line) as [names|]; [|discriminate].
    destruct (cache_images ds img_root (zip imgs names) s)
      as [[ps|e] sa] eqn:Ha; [|discriminate].
    intros [= <- <-] Hpres.
    destruct (cache_images_again ds img_root _ s sa t ps Ha Hpres)
      as (t1 & ->). eauto.
Qed.

End Materialize.

(** C7.  After [build_prompt] has returned a prompt record, a second
    call with the same row and dataset returns the same record, the
    same image path or list of paths in particular, and writes no file
    that exists and is readable when the second call starts; such
    files are the same after it. *)
Theorem build_prompt_twice (ds : datasets) (line : row)
    (dataset : option pystr) (st st1 : store) (r : prompt_record) :
  build_prompt ds line dataset st = (Ok r, st1) →
  ∃ st2 new,
    build_prompt ds line dataset st1 = (Ok r, st2) ∧
    written st2 = written st1 ++ new ∧
    (∀ p, read_ok ds st1 p = true → p ∉ new) ∧
    (∀ p, read_ok ds st1 p = true → files st2 !! p = files st1 !! p).
Proof.
  intros H. apply build_prompt_Ok in H as (root & Hroot & Hm & Ht).
  set (img_root := osp_join (u "images") root) in *.
  destruct (materialize_again ds img_root line _ st1 (makedirs img_root st1)
              _ Hm (preserves_makedirs ds img_root st1)) as (st2 & Hm2).
  pose proof Hm2 as Htr.
  apply materialize_trace in Htr as (new & Hw & Hnew & Hpres).
  exists st2, new. split; [|split; [done|split; [done|]]].
  - apply build_prompt_Ok. exists root. auto.
  - intros p Hp. by apply Hpres.
Qed.

Lemma build_prompt_twice_witness :
  ∃ r st1 st2,
    build_prompt Sample.tables Sample.pair (Some (u "MME"))
      Sample.empty_disk = (Ok r, st1) ∧
    written st1 = [u "images/MME/3_1.jpg"; u "images/MME/3_2.jpg"] ∧
    build_prompt Sample.tables Sample.pair (Some (u "MME")) st1
    = (Ok r, st2) ∧
    written st2 = written st1.
Proof.
  destruct (build_prompt Sample.tables Sample.pair (Some (u "MME"))
              Sample.empty_disk) as [[r|e] st1] eqn:H;
    [|by vm_compute in H].
  destruct (build_prompt_twice _ _ _ _ _ _ H)
    as (st2 & new & H2 & Hw & Hnew & _).
  exists r, st1, st2.
  assert (Hst1 : written st1
                 = [u "images/MME/3_1.jpg"; u "images/MME/3_2.jpg"]).
  { vm_compute in H. injection H as _ <-. reflexivity. }
  split; [reflexivity|]. split; [exact Hst1|]. split; [exact H2|].
  rewrite Hw. rewrite <- (app_nil_r (written st1)) at 2. f_equal.
  vm_compute in H. injection H as _ <-.
  vm_compute in H2. injection H2 as _ <-. vm_compute in Hw.
  by injection Hw as <-.
Defined.






(** * Further properties *)

(** ** The constructor, step by step *)

(** X1.  What [__init__] takes as the bundle is an existing directory:
    the given path when that is a directory, else the cached snapshot
    when there is one, else the downloaded one; it fails with the
    download's error, or with an assertion error when the path found
    is no directory. *)
Theorem resolve_finds_directory (w : world) (llava_path : pystr) :
  let found :=
    if isdir w llava_path then Ok llava_path
    else match get_cache_path w llava_path with
         | Some cache_path => Ok cache_path
         | None => snapshot_download w llava_path
         end in
  match resolve w llava_path with
  | Ok dir => found = Ok dir ∧ isdir w dir = true ∧ exists_ w dir = true
  | Err e =>
    found = Err e ∨
    (e = AssertionError ∧
     ∃ dir, found = Ok dir ∧ (exists_ w dir = false ∨ isdir w dir = false))
  end.
Proof.
  intros found. unfold resolve. fold found.
  destruct found as [dir|e]; [|by left].
  rewrite bind_Ok_l. unfold assert.
  destruct (exists_ w dir) eqn:He, (isdir w dir) eqn:Hd; simpl; eauto 10.
Qed.

Lemma choose_Ok (w : world) (dir name : pystr) (explicit : option pystr)
    (p : pystr) :
  choose w dir name explicit = Ok p ↔
  (name ∈ listdir w dir ∧ explicit = None ∧ p = osp_join dir name) ∨
  ((name ∉ listdir w dir) ∧ explicit = Some p).
Proof.
  unfold choose, pyin.
  destruct (decide (name ∈ listdir w dir)) as [Hin|Hin].
  - rewrite bool_decide_eq_true_2 by done. destruct explicit as [q|]; simpl.
    + split; [discriminate | intros [(_ & ? & _)|(? & _)]; done].
    + split; [intros [= <-]; by left | intros [(_ & _ & ->)|(? & _)]; done].
  - rewrite bool_decide_eq_false_2 by done. destruct explicit as [q|].
    + split; [intros [= <-]; by right|].
      intros [(? & _)|(_ & [= ->])]; done.
    + split; [discriminate | intros [(? & _)|(_ & ?)]; done].
Qed.

Lemma with_adapter_cases (w : world) (dir name : pystr) (m m' : model) :
  with_adapter w dir name m = Ok m' ↔
  (name ∈ listdir w dir ∧
   peft_from_pretrained w m (osp_join dir name) = Ok m') ∨
  ((name ∉ listdir w dir) ∧ m' = m).
Proof.
  unfold with_adapter, pyin.
  destruct (decide (name ∈ listdir w dir)) as [Hin|Hin].
  - rewrite bool_decide_eq_true_2 by done.
    split; [by left | intros [(_ & ?)|(? & _)]; done].
  - rewrite bool_decide_eq_false_2 by done.
    split; [intros [= <-]; by right | intros [(? & _)|(_ & ->)]; done].
Qed.

(** Every step of a successful [__init__]. *)
Lemma init_steps (w : world) (llava_path : pystr)
    (llm_path visual_encoder_path : option pystr) (select_layer : Z)
    (template_name : option pystr) (kwargs : gmap pystr pyval)
    (a : adapter) :
  init w llava_path llm_path visual_encoder_path select_layer template_name
       kwargs = Ok a →
  ∃ dir p_llm p_ve m_llm m_ve,
    xtuner_installed w = true ∧
    resolve w llava_path = Ok dir ∧
    choose w dir (u "llm") llm_path = Ok p_llm ∧
    from_pretrained w p_llm = Ok m_llm ∧
    tokenizer_from_pretrained w p_llm = Ok (the_tokenizer a) ∧
    choose w dir (u "visual_encoder") visual_encoder_path = Ok p_ve ∧
    from_pretrained w p_ve = Ok m_ve ∧
    image_processor_from_pretrained w p_ve = Ok (image_processor a) ∧
    with_adapter w dir (u "llm_adapter") m_llm = Ok (llm a) ∧
    with_adapter w dir (u "visual_encoder_adapter") m_ve
    = Ok (visual_encoder a) ∧
    from_pretrained w (osp_join dir (u "projector")) = Ok (projector a) ∧
    match template_name with
    | Some name => ∃ t, PROMPT_TEMPLATE w name = Some t ∧
                        prompt_template a = Some t
    | None => prompt_template a = None
    end ∧
    get_chat_utils w (llm a) = Ok (stop_criteria a) ∧
    visual_select_layer a = select_layer.
Proof.
  unfold init. intros H. ok_steps H. injection H as <-. simpl.
  exists a1, a2, a5, a3, a6.
  destruct (xtuner_installed w); [|discriminate].
  repeat (split; [assumption || reflexivity|]).
  split; [|done].
  destruct template_name as [name|].
  - apply bind_Ok in Ha10 as (t & Ht & [= <-]).
    apply getitem_Ok in Ht. by exists t.
  - by injection Ha10 as <-.
Qed.

(** X2.  In a constructed adapter the language model and the vision
    encoder each come from exactly one place: the bundle's
    subdirectory when the bundle has it, and then no explicit path was
    given, or the explicit path when the bundle has none.  The
    tokenizer is loaded from the language model's path and the image
    processor from the vision encoder's. *)
Theorem init_single_source (w : world) (llava_path : pystr)
    (llm_path visual_encoder_path : option pystr) (select_layer : Z)
    (template_name : option pystr) (kwargs : gmap pystr pyval)
    (a : adapter) :
  init w llava_path llm_path visual_encoder_path select_layer template_name
       kwargs = Ok a →
  ∃ dir p_llm p_ve,
    resolve w llava_path = Ok dir ∧
    ((u "llm" ∈ listdir w dir ∧ llm_path = None ∧
      p_llm = osp_join dir (u "llm")) ∨
     ((u "llm" ∉ listdir w dir) ∧ llm_path = Some p_llm)) ∧
    ((u "visual_encoder" ∈ listdir w dir ∧ visual_encoder_path = None ∧
      p_ve = osp_join dir (u "visual_encoder")) ∨
     ((u "visual_encoder" ∉ listdir w dir) ∧
      visual_encoder_path = Some p_ve)) ∧
    is_ok (from_pretrained w p_llm) = true ∧
    tokenizer_from_pretrained w p_llm = Ok (the_tokenizer a) ∧
    is_ok (from_pretrained w p_ve) = true ∧
    image_processor_from_pretrained w p_ve = Ok (image_processor a).
Proof.
  intros H. apply init_steps in H
    as (dir & p_llm & p_ve & m_llm & m_ve & _ & Hdir & Hl & Hml & Ht & Hv
        & Hmv & Hp & _).
  exists dir, p_llm, p_ve. apply choose_Ok in Hl, Hv.
  rewrite Hml, Hmv. done.
Qed.

Lemma init_single_source_witness :
  ∃ a, init Sample.bare (u "bundle") (Some (u "hub/llm"))
            (Some (u "hub/clip")) (-2) None ∅ = Ok a ∧
       tokenizer_from_pretrained Sample.bare (u "hub/llm")
       = Ok (the_tokenizer a) ∧
       image_processor a
       = {| processor_path := u "hub/clip";
            fill_colour := [122; 116; 104]%Z |}.
Proof.
  destruct (init Sample.bare (u "bundle") (Some (u "hub/llm"))
              (Some (u "hub/clip")) (-2) None ∅) as [a|e] eqn:H;
    [|by vm_compute in H].
  exists a. split; [reflexivity|].
  destruct (init_single_source _ _ _ _ _ _ _ _ H)
    as (dir & p_llm & p_ve & _ & Hl & Hv & _ & Ht & _ & Hp).
  destruct Hl as [(_ & Hl & _)|(_ & [= <-])]; [discriminate|].
  destruct Hv as [(_ & Hv & _)|(_ & [= <-])]; [discriminate|].
  split; [exact Ht|]. by injection Hp as <-.
Defined.

(** X3.  The low-rank adapters are optional: the language model of a
    constructed adapter is the loaded base model when the bundle has
    no [llm_adapter], and what peft makes of it with
    [bundle/llm_adapter] when it has; likewise the vision encoder with
    [visual_encoder_adapter].  The projector is always the one of
    [bundle/projector]. *)
Theorem init_merges_adapters (w : world) (llava_path : pystr)
    (llm_path visual_encoder_path : option pystr) (select_layer : Z)
    (template_name : option pystr) (kwargs : gmap pystr pyval)
    (a : adapter) :
  init w llava_path llm_path visual_encoder_path select_layer template_name
       kwargs = Ok a →
  ∃ dir p_llm p_ve m_llm m_ve,
    resolve w llava_path = Ok dir ∧
    choose w dir (u "llm") llm_path = Ok p_llm ∧
    from_pretrained w p_llm = Ok m_llm ∧
    choose w dir (u "visual_encoder") visual_encoder_path = Ok p_ve ∧
    from_pretrained w p_ve = Ok m_ve ∧
    ((u "llm_adapter" ∈ listdir w dir ∧
      peft_from_pretrained w m_llm (osp_join dir (u "llm_adapter"))
      = Ok (llm a)) ∨
     ((u "llm_adapter" ∉ listdir w dir) ∧ llm a = m_llm)) ∧
    ((u "visual_encoder_adapter" ∈ listdir w dir ∧
      peft_from_pretrained w m_ve
        (osp_join dir (u "visual_encoder_adapter"))
      = Ok (visual_encoder a)) ∨
     ((u "visual_encoder_adapter" ∉ listdir w dir) ∧
      visual_encoder a = m_ve)) ∧
    from_pretrained w (osp_join dir (u "projector")) = Ok (projector a).
Proof.
  intros H. apply init_steps in H
    as (dir & p_llm & p_ve & m_llm & m_ve & _ & Hdir & Hl & Hml & _ & Hv
        & Hmv & _ & Hal & Hav & Hproj & _).
  exists dir, p_llm, p_ve, m_llm, m_ve.
  apply with_adapter_cases in Hal, Hav. done.
Qed.

Lemma init_merges_adapters_witness :
  ∃ a b,
    init Cases.complete (u "org/llava") None None (-2) None ∅ = Ok a ∧
    llm a = {| base := u "cache/llava/llm";
               adapters := [u "cache/llava/llm_adapter"] |} ∧
    visual_encoder a
    = {| base := u "cache/llava/visual_encoder";
         adapters := [u "cache/llava/visual_encoder_adapter"] |} ∧
    init Sample.full (u "bundle") None None (-2) None ∅ = Ok b ∧
    llm b = {| base := u "bundle/llm"; adapters := [] |}.
Proof.
  destruct (init Cases.complete (u "org/llava") None None (-2) None ∅)
    as [a|e] eqn:Ha; [|by vm_compute in Ha].
  destruct (init Sample.full (u "bundle") None None (-2) None ∅)
    as [b|e] eqn:Hb; [|by vm_compute in Hb].
  exists a, b.
  destruct (init_merges_adapters _ _ _ _ _ _ _ _ Ha)
    as (dir & p_llm & p_ve & m_llm & m_ve & Hdir & Hl & Hml & Hv & Hmv
        & Hal & Hav & _).
  destruct (init_merges_adapters _ _ _ _ _ _ _ _ Hb)
    as (dir' & p' & _ & m' & _ & Hdir' & Hl' & Hml' & _ & _ & Hal' & _).
  injection Hdir as <-. injection Hl as <-. injection Hml as <-.
  injection Hv as <-. injection Hmv as <-.
  injection Hdir' as <-. injection Hl' as <-. injection Hml' as <-.
  split; [reflexivity|]. split; [|split; [|split; [reflexivity|]]].
  - destruct Hal as [(_ & Hal)|(Hno & _)].
    + by injection Hal as <-.
    + destruct Hno. apply (bool_decide_unpack _). vm_compute. exact I.
  - destruct Hav as [(_ & Hav)|(Hno & _)].
    + by injection Hav as <-.
    + destruct Hno. apply (bool_decide_unpack _). vm_compute. exact I.
  - destruct Hal' as [(Hin & _)|(_ & ->)]; [|reflexivity].
    exfalso. revert Hin. apply (bool_decide_unpack _). vm_compute. exact I.
Defined.

(** X4.  The projector is required: when [bundle/projector] does not
    load, the constructor fails whatever else it is given. *)
Theorem init_requires_projector (w : world) (llava_path dir : pystr)
    (llm_path visual_encoder_path : option pystr) (select_layer : Z)
    (template_name : option pystr) (kwargs : gmap pystr pyval) :
  resolve w llava_path = Ok dir →
  is_ok (from_pretrained w (osp_join dir (u "projector"))) = false →
  is_ok (init w llava_path llm_path visual_encoder_path select_layer
              template_name kwargs) = false.
Proof.
  intros Hdir Hproj.
  destruct (init _ _ _ _ _ _ _) as [a|e'] eqn:H; [|done].
  apply init_steps in H
    as (dir' & ? & ? & ? & ? & _ & Hdir' & _ & _ & _ & _ & _ & _ & _ & _
        & Hp & _).
  rewrite Hdir in Hdir'. injection Hdir' as <-.
  by rewrite Hp in Hproj.
Qed.

Lemma init_requires_projector_witness :
  is_ok (init Cases.cached (u "org/llava") None None (-2) None ∅) = false.
Proof.
  apply (init_requires_projector Cases.cached (u "org/llava")
           (u "cache/llava")); reflexivity.
Defined.

(** X5.  The template name touches nothing but the template: where the
    constructor succeeds without a template, it succeeds with every
    registered name, giving the same adapter with that template, and
    fails with a key error on a name the registry does not have. *)
Theorem init_template_only (w : world) (llava_path : pystr)
    (llm_path visual_encoder_path : option pystr) (select_layer : Z)
    (kwargs : gmap pystr pyval) (a : adapter) (name : pystr) :
  init w llava_path llm_path visual_encoder_path select_layer None kwargs
  = Ok a →
  prompt_template a = None ∧
  init w llava_path llm_path visual_encoder_path select_layer (Some name)
       kwargs
  = match PROMPT_TEMPLATE w name with
    | Some t => Ok (with_template a (Some t))
    | None => Err KeyError
    end.
Proof.
  unfold init. intros H. ok_steps H. injection Ha10 as <-.
  injection H as <-. split; [done|].
  rewrite Ha. rewrite bind_Ok_l, Ha0. rewrite bind_Ok_l, Ha1.
  rewrite bind_Ok_l, Ha2. rewrite bind_Ok_l, Ha3.
  rewrite bind_Ok_l, Ha4. rewrite bind_Ok_l, Ha5.
  rewrite bind_Ok_l, Ha6. rewrite bind_Ok_l, Ha7.
  rewrite bind_Ok_l, Ha8. rewrite bind_Ok_l, Ha9. rewrite bind_Ok_l.
  destruct (PROMPT_TEMPLATE w name) as [t|]; [|done].
  simpl. by rewrite Ha11.
Qed.

Lemma init_template_only_witness :
  ∃ a,
    init Cases.complete (u "org/llava") None None (-2) None ∅ = Ok a ∧
    init Cases.complete (u "org/llava") None None (-2) (Some (u "vicuna")) ∅
    = Ok (with_template a
            (Some [Lit (u "USER: "); Input; Lit (u " ASSISTANT:")])) ∧
    init Cases.complete (u "org/llava") None None (-2) (Some (u "alpaca")) ∅
    = Err KeyError.
Proof.
  destruct (init Cases.complete (u "org/llava") None None (-2) None ∅)
    as [a|e] eqn:Ha; [|by vm_compute in Ha].
  exists a. split; [reflexivity|]. split.
  - exact (proj2 (init_template_only _ _ _ _ _ _ a (u "vicuna") Ha)).
  - exact (proj2 (init_template_only _ _ _ _ _ _ a (u "alpaca") Ha)).
Defined.

(** X6.  The generation configuration of a constructed adapter has the
    four default keys and the caller's keys, and no other. *)
Theorem gen_config_keys (w : world) (llava_path : pystr)
    (llm_path visual_encoder_path : option pystr) (select_layer : Z)
    (template_name : option pystr) (kwargs : gmap pystr pyval)
    (a : adapter) :
  init w llava_path llm_path visual_encoder_path select_layer template_name
       kwargs = Ok a →
  dom (gen_config a)
  = dom kwargs ∪ {[ u "max_new_tokens"; u "do_sample"; u "eos_token_id";
                    u "pad_token_id" ]}.
Proof.
  intros H. apply init_Ok in H as (_ & _ & _ & _ & _ & _ & ->).
  apply set_eq. intros k.
  rewrite elem_of_dom, make_gen_config_lookup, elem_of_union, elem_of_dom.
  destruct (kwargs !! k) as [v|] eqn:Hk.
  - split; [by left | by eauto].
  - rewrite <- elem_of_dom. unfold kwargs_default.
    rewrite !dom_insert_L, dom_empty_L.
    rewrite !elem_of_union, !elem_of_singleton, elem_of_empty.
    split.
    + intros [?|[?|[?|[?|[]]]]]; auto.
    + intros [[? [=]]|[[[?|?]|?]|?]]; auto.
Qed.

Lemma gen_config_keys_witness :
  ∃ a,
    init Sample.full (u "bundle") None None (-2) None
         {[ u "temperature" := PInt 1 ]} = Ok a ∧
    u "temperature" ∈ dom (gen_config a) ∧
    u "pad_token_id" ∈ dom (gen_config a) ∧
    u "top_p" ∉ dom (gen_config a).
Proof.
  destruct (init Sample.full (u "bundle") None None (-2) None
              {[ u "temperature" := PInt 1 ]}) as [a|e] eqn:Ha;
    [|by vm_compute in Ha].
  exists a. split; [reflexivity|].
  rewrite (gen_config_keys _ _ _ _ _ _ _ _ Ha), dom_singleton_L.
  rewrite !elem_of_union, !elem_of_singleton.
  split; [by left|]. split; [right; by right|].
  intros [H|[[[H|H]|H]|H]]; vm_compute in H; discriminate.
Defined.

(** ** The text of the prompt, case by case *)

Lemma assembled_prompt_Err (line : row) (e : exn) :
  assembled_prompt line = Err e ↔
  (col line "question" = None ∧ e = KeyError) ∨
  (∃ q, col line "question" = Some q ∧ e = TypeError ∧
        ((∀ s, q ≠ SStr s) ∨
         ∃ h, col line "hint" = Some h ∧ pd_isna h = false ∧
              ∀ s, h ≠ SStr s)).
Proof.
  unfold assembled_prompt, hinted_question.
  destruct (col line "question") as [[| |q|zq]|];
    destruct (col line "hint") as [[| |h|zh]|]; simpl;
    (split;
     [ intros H; try discriminate H; injection H as <-;
       first [ left; done
             | right; eexists; split; [done|]; split; [done|];
               first [ left; done
                     | right; eexists; split; [done|]; split; done ] ]
     | intros [[H1 H2]|(q' & H1 & H2 & [H3|(h' & H4 & H5 & H6)])];
       try discriminate; subst; try done;
       try (injection H1 as <-); try (injection H4 as <-);
       try discriminate;
       first [ by destruct (H3 _ eq_refl) | by destruct (H6 _ eq_refl) ] ]).
Qed.

(** X7.  The text of the prompt fails in two ways only.  It raises a
    key error exactly when the row has no ['question'], for any
    dataset; it raises a type error exactly when the dataset is
    multi-choice and the question is no string, or the hint is
    neither missing nor a string.  In particular a missing question
    value ([NaN]) is returned as it is for the other datasets and
    rejected for a multi-choice one. *)
Theorem build_text_fails_iff (ds : datasets) (line : row)
    (dataset : option pystr) (e : exn) :
  build_text ds line dataset = Err e ↔
  (col line "question" = None ∧ e = KeyError) ∨
  (multi_choice ds dataset ∧ e = TypeError ∧
   ∃ q, col line "question" = Some q ∧
        ((∀ s, q ≠ SStr s) ∨
         ∃ h, col line "hint" = Some h ∧ pd_isna h = false ∧
              ∀ s, h ≠ SStr s)).
Proof.
  assert (Hplain : ¬ multi_choice ds dataset →
            build_text ds line dataset = Err e ↔
            col line "question" = None ∧ e = KeyError).
  { intros Hno. rewrite build_text_plain.
    - destruct (col line "question"); simpl; split;
        [discriminate | by intros [? _] | intros [= <-]; done
        | by intros [_ ->]].
    - destruct dataset as [d|]; [|by left]. right. exists d.
      split; [done|]. intros Hd. apply Hno. by exists d. }
  destruct dataset as [d|].
  2:{ rewrite Hplain by (by intros (d & ? & _)).
      split; [by left | intros [?|((d & ? & _) & _)]; done]. }
  destruct (decide (DATASET_TYPE ds d = u "multi-choice")) as [Hd|Hd].
  - rewrite (build_text_multi_choice ds line (Some d) d) by done.
    assert (∀ r : result pystr,
              r ≫= (λ prompt, Ok (SStr (add_instruction prompt))) = Err e
              ↔ r = Err e) as ->
      by (intros [x|e']; simpl; split; congruence).
    rewrite assembled_prompt_Err. split.
    + intros [?|(q & ? & -> & ?)]; [by left|].
      right. split; [by exists d|]. split; [done|]. by exists q.
    + intros [?|(_ & -> & q & ? & ?)]; [by left|]. right. by exists q.
  - rewrite Hplain by (intros (d' & [= <-] & ?); done).
    split; [by left | intros [?|((d' & [= <-] & ?) & _)]; done].
Qed.

(** X10.  For a multi-choice dataset and a question that is a string,
    a hint that is a string goes before the question, a space between
    them, and a hint that is missing, as a value or as a column,
    leaves the question as it is. *)
Theorem hint_goes_first (ds : datasets) (line : row) (d q : pystr) :
  DATASET_TYPE ds d = u "multi-choice" →
  col line "question" = Some (SStr q) →
  (missing line "hint" →
   build_text ds line (Some d)
   = Ok (SStr (add_instruction (q ++ u " " ++ options_prompt line)))) ∧
  (∀ h, col line "hint" = Some (SStr h) →
        build_text ds line (Some d)
        = Ok (SStr (add_instruction
                      ((h ++ u " " ++ q) ++ u " " ++ options_prompt line)))).
Proof.
  intros Hd Hq.
  rewrite (build_text_multi_choice ds line (Some d) d) by done.
  unfold assembled_prompt, hinted_question. rewrite Hq. split.
  - intros Hmiss. destruct (col line "hint") as [h|] eqn:Hh; [|done].
    by rewrite (Hmiss h).
  - by intros h ->.
Qed.

Lemma hint_goes_first_witness :
  build_text Sample.tables Cases.bare_question (Some (u "MMBench"))
  = Ok (SStr (u "Why? There are several options:" ++ nl ++ nl ++
              en_instruction)) ∧
  build_text Sample.tables Sample.shuffled (Some (u "MMBench"))
  = Ok (SStr (u "Count. How many? There are several options:" ++ nl ++
              u "A. 1" ++ nl ++ u "B. two" ++ nl ++ u "C. three" ++ nl ++
              nl ++ en_instruction)).
Proof.
  split.
  - rewrite (proj1 (hint_goes_first Sample.tables Cases.bare_question
                      (u "MMBench") (u "Why?") eq_refl eq_refl)).
    + reflexivity.
    + intros v Hv. vm_compute in Hv. by injection Hv as <-.
  - rewrite (proj2 (hint_goes_first Sample.tables Sample.shuffled
                      (u "MMBench") (u "How many?") eq_refl eq_refl)
               (u "Count.") eq_refl).
    reflexivity.
Defined.

Lemma option_line_nonempty (kv : string * scalar) : option_line kv ≠ [].
Proof.
  unfold option_line. destruct (u kv.1); simpl; [|done].
  destruct (py_str kv.2); done.
Qed.

(** X12.  A row offers at most five options, and it offers none, the
    option block being the header alone, exactly when each of the
    columns A to E is absent or holds a missing value. *)
Theorem no_options_header_only (line : row) :
  (length (options line) ≤ 5)%nat ∧
  ((∀ k, k ∈ option_candidate → missing line k) ↔
   options_prompt line = options_header).
Proof.
  split.
  - pose proof (sublist_length _ _ (options_keys_sublist line)) as H.
    by rewrite length_fmap in H.
  - rewrite options_prompt_lines. split.
    + intros Hmiss.
      assert (options line = []) as ->; [|by rewrite app_nil_r].
      destruct (options line) as [|[k v] l] eqn:E; [done|].
      assert ((k, v) ∈ options line) as Hin by (rewrite E; left).
      apply options_elem_of in Hin as (Hk & Hv & Hna).
      rewrite (Hmiss k Hk v Hv) in Hna. discriminate.
    + intros Hblock k Hk v Hv.
      destruct (pd_isna v) eqn:Hna; [done|].
      assert ((k, v) ∈ options line) as Hin by (by apply options_elem_of).
      assert (concat (map option_line (options line)) = []) as Hnil.
      { apply (app_inv_head options_header). by rewrite app_nil_r. }
      destruct (options line) as [|kv l]; [by apply elem_of_nil in Hin|].
      simpl in Hnil. apply app_eq_nil in Hnil as [Hnil _].
      by apply option_line_nonempty in Hnil.
Qed.

Lemma ascii_not_cjk (s : string) (c : N) : c ∈ u s → is_cjk c = false.
Proof.
  unfold u. intros Hc. apply list_elem_of_fmap in Hc as (a & -> & _).
  unfold is_cjk. apply andb_false_intro1. apply N.leb_gt.
  pose proof (N_ascii_bounded a). lia.
Qed.

Lemma elem_of_concat_lines (c : N) (l : list (string * scalar)) :
  c ∈ concat (map option_line l) ↔ ∃ kv, kv ∈ l ∧ c ∈ option_line kv.
Proof.
  induction l as [|kv l IH]; simpl.
  - split; [by intros ?%elem_of_nil | by intros (? & ?%elem_of_nil & _)].
  - rewrite elem_of_app, IH. split.
    + intros [H|(kv' & Hin & H)]; [exists kv | exists kv']; split;
        try done; [left | by right].
    + intros (kv' & [->|Hin]%elem_of_cons & H); [by left|].
      right. by exists kv'.
Qed.

(** X11.  The language of the instruction is decided on the whole
    prompt: for a multi-choice dataset the text ends with the Chinese
    instruction exactly when a character of U+4E00..U+9FFF is in the
    hint, in the question or in the text of one of the options, and
    with the English one otherwise. *)
Theorem chinese_iff_cjk_in_row (ds : datasets) (line : row) (d : pystr)
    (t : scalar) :
  DATASET_TYPE ds d = u "multi-choice" →
  build_text ds line (Some d) = Ok t →
  let cjk_in_row :=
    ∃ c, is_cjk c = true ∧
         ((∃ q, hinted_question line = Ok (SStr q) ∧ c ∈ q) ∨
          (∃ k v, (k, v) ∈ options line ∧ c ∈ py_str v)) in
  ∃ assembled,
    assembled_prompt line = Ok assembled ∧
    (cjk_in_row → t = SStr (assembled ++ nl ++ zh_instruction)) ∧
    (¬ cjk_in_row → t = SStr (assembled ++ nl ++ en_instruction)).
Proof.
  intros Hd Ht cjk_in_row.
  rewrite (build_text_multi_choice ds line (Some d) d) in Ht by done.
  apply bind_Ok in Ht as (assembled & Ha & [= <-]).
  exists assembled. split; [done|].
  pose proof Ha as Hshape.
  apply assembled_prompt_Ok in Hshape as (q & Hq & ->).
  assert (Hiff : cn_string (q ++ u " " ++ options_prompt line) = true
                 ↔ cjk_in_row).
  { rewrite cn_string_true. unfold cjk_in_row. split.
    - intros (c & Hc & Hcjk). exists c. split; [done|].
      rewrite options_prompt_lines in Hc.
      rewrite !elem_of_app in Hc.
      destruct Hc as [Hc|[Hc|[Hc|Hc]]].
      + left. by exists q.
      + apply ascii_not_cjk in Hc. congruence.
      + unfold options_header in Hc. apply elem_of_app in Hc as [Hc|Hc].
        * apply ascii_not_cjk in Hc. congruence.
        * unfold nl in Hc. apply list_elem_of_singleton in Hc as ->.
          discriminate.
      + apply elem_of_concat_lines in Hc as ([k v] & Hin & Hc).
        unfold option_line in Hc. cbn [fst snd] in Hc.
        rewrite !elem_of_app in Hc.
        destruct Hc as [Hc|[Hc|[Hc|Hc]]].
        * apply ascii_not_cjk in Hc. congruence.
        * apply ascii_not_cjk in Hc. congruence.
        * right. by exists k, v.
        * unfold nl in Hc. apply list_elem_of_singleton in Hc as ->.
          discriminate.
    - intros (c & Hcjk & [(q' & Hq' & Hc)|(k & v & Hin & Hc)]);
        exists c; split; try done.
      + rewrite Hq in Hq'. injection Hq' as <-.
        rewrite elem_of_app. by left.
      + rewrite options_prompt_lines, !elem_of_app. right. right. right.
        apply elem_of_concat_lines. exists (k, v). split; [done|].
        unfold option_line. cbn [fst snd]. rewrite !elem_of_app. auto. }
  unfold add_instruction. split.
  - intros H. apply Hiff in H. by rewrite H.
  - intros H. destruct (cn_string _) eqn:E; [|done].
    destruct H. by apply Hiff.
Qed.

Lemma chinese_iff_cjk_in_row_witness :
  build_text Sample.tables Cases.mixed (Some (u "MMBench"))
  = Ok (SStr (u "Which one? There are several options:" ++ nl ++
              u "A. blue" ++ nl ++ u "B. " ++ [0x84dd] ++ nl ++ nl ++
              zh_instruction)).
Proof.
  destruct (build_text Sample.tables Cases.mixed (Some (u "MMBench")))
    as [t|e] eqn:Ht; [|by vm_compute in Ht].
  destruct (chinese_iff_cjk_in_row Sample.tables Cases.mixed (u "MMBench") t
              eq_refl Ht) as (assembled & Ha & Hzh & _).
  rewrite Hzh.
  - vm_compute in Ha. injection Ha as <-. reflexivity.
  - exists 0x84dd. split; [reflexivity|]. right.
    exists "B"%string, (SStr [0x84dd]). split.
    + apply options_elem_of. split; [|by split].
      apply (bool_decide_unpack _). vm_compute. exact I.
    + apply list_elem_of_here.
Defined.

(** ** What the cache does to the disk *)

Section Disk.

Context (ds : datasets).

Lemma frame_refl (s : store) : frame s s [].
Proof.
  unfold frame. rewrite app_nil_r. repeat split; try done.
  by intros p ?%elem_of_nil.
Qed.

Lemma frame_trans (s1 s2 s3 : store) (n1 n2 : list pystr) :
  frame s1 s2 n1 → frame s2 s3 n2 → frame s1 s3 (n1 ++ n2).
Proof.
  intros (Hw1 & Hd1 & Hf1 & Hn1 & Hm1) (Hw2 & Hd2 & Hf2 & Hn2 & Hm2).
  unfold frame. rewrite Hw2, Hw1, app_assoc, Hd2, Hd1.
  split; [done|]. split; [done|]. split; [|split].
  - intros p Hp. rewrite elem_of_app in Hp.
    rewrite Hf2, Hf1; [done| |]; intros ?; apply Hp; auto.
  - intros p [Hp|Hp]%elem_of_app; auto.
  - auto.
Qed.

Lemma cache_image_frame (img path : pystr) (s s' : store)
    (res : result unit) :
  cache_image ds img path s = (res, s') →
  ∃ new, frame s s' new ∧ (∀ p, p ∈ new → p = path) ∧
         (res = Err LibraryError ∧ decode_base64_to_image ds img = None
          ∨ res = Ok tt ∧ is_Some (files s' !! path)).
Proof.
  unfold cache_image, decode_base64_to_image_file, read_ok.
  destruct (files s !! path) as [f0|] eqn:Hf0;
    [destruct (readable ds f0) eqn:Hr|]; simpl.
  - intros [= <- <-]. exists []. split; [apply frame_refl|].
    split; [by intros p ?%elem_of_nil|]. right. by rewrite Hf0.
  - destruct (decode_base64_to_image ds img) as [f|].
    + intros [= <- <-]. exists [path]. split; [|split].
      * unfold frame. simpl. repeat split; try done.
        -- intros p Hp. apply lookup_insert_ne. intros <-. apply Hp. left.
        -- intros p ->%list_elem_of_singleton. by rewrite lookup_insert_eq.
        -- intros p Hp. destruct (decide (p = path)) as [->|Hne].
           ++ by rewrite lookup_insert_eq.
           ++ by rewrite lookup_insert_ne.
      * by intros p ->%list_elem_of_singleton.
      * right. simpl. by rewrite lookup_insert_eq.
    + intros [= <- <-]. exists []. split; [apply frame_refl|].
      split; [by intros p ?%elem_of_nil|]. by left.
  - destruct (decode_base64_to_image ds img) as [f|].
    + intros [= <- <-]. exists [path]. split; [|split].
      * unfold frame. simpl. repeat split; try done.
        -- intros p Hp. apply lookup_insert_ne. intros <-. apply Hp. left.
        -- intros p ->%list_elem_of_singleton. by rewrite lookup_insert_eq.
        -- intros p Hp. destruct (decide (p = path)) as [->|Hne].
           ++ by rewrite lookup_insert_eq.
           ++ by rewrite lookup_insert_ne.
      * by intros p ->%list_elem_of_singleton.
      * right. simpl. by rewrite lookup_insert_eq.
    + intros [= <- <-]. exists []. split; [apply frame_refl|].
      split; [by intros p ?%elem_of_nil|]. by left.
Qed.

Lemma cache_images_frame (img_root : pystr) (pairs : list (pystr * pystr))
    (s s' : store) (res : result (list pystr)) :
  cache_images ds img_root pairs s = (res, s') →
  ∃ new, frame s s' new ∧
         (∀ p, p ∈ new → p ∈ map (osp_join img_root) pairs.*2) ∧
         match res with
         | Ok tgt_path => ∀ p, p ∈ tgt_path → is_Some (files s' !! p)
         | Err e => e = LibraryError ∧
                    ∃ img, img ∈ pairs.*1 ∧
                           decode_base64_to_image ds img = None
         end.
Proof.
  revert s s' res. induction pairs as [|[img im_name] rest IH];
    intros s s' res; simpl.
  - intros [= <- <-]. exists []. split; [apply frame_refl|].
    split; by intros p ?%elem_of_nil.
  - destruct (cache_image ds img (osp_join img_root im_name) s)
      as [r1 s1] eqn:H1.
    apply cache_image_frame in H1 as (n1 & Hf1 & Hn1 & Hr1).
    destruct Hr1 as [[-> Hdec]|[-> Hsome]].
    + intros [= <- <-]. exists n1. split; [done|]. split.
      * intros p Hp. rewrite (Hn1 p Hp). left.
      * split; [done|]. exists img. split; [left|done].
    + destruct (cache_images ds img_root rest s1) as [r2 s2] eqn:H2.
      apply IH in H2 as (n2 & Hf2 & Hn2 & Hr2).
      intros Heq. exists (n1 ++ n2).
      assert (s' = s2) as -> by (destruct r2; congruence).
      split; [by eapply frame_trans|]. split.
      * intros p [Hp|Hp]%elem_of_app; [rewrite (Hn1 p Hp); left|].
        right. by apply Hn2.
      * destruct r2 as [ps|e]; injection Heq as <-.
        -- intros p [->|Hp]%elem_of_cons; [|by apply Hr2].
           by apply Hf2.
        -- destruct Hr2 as (-> & img' & Hin & Hdec). split; [done|].
           exists img'. split; [by right|done].
Qed.

Lemma materialize_target (img_root : pystr) (line : row) (s s' : store)
    (tgt : target) :
  materialize ds img_root line s = (Ok tgt, s') →
  target_of img_root line = Ok tgt.
Proof.
  unfold materialize, target_of. destruct (image line) as [img|imgs].
  - destruct (col line "index") as [index|]; [|discriminate]. simpl.
    destruct (cache_image _ _ _ _) as [[[]|e] s1]; [|discriminate].
    by intros [= <- <-].
  - destruct (image_path line) as [names|]; [|discriminate]. simpl.
    destruct (cache_images _ _ _ _) as [[ps|e] s1] eqn:Hc; [|discriminate].
    intros [= <- <-]. by rewrite (cache_images_paths _ _ _ _ _ _ Hc).
Qed.

Lemma materialize_frame (img_root : pystr) (line : row) (s s' : store)
    (res : result target) :
  materialize ds img_root line s = (res, s') →
  ∃ new, frame s s' new ∧
         match res with
         | Ok tgt => target_of img_root line = Ok tgt ∧
                     (∀ p, p ∈ new → p ∈ targets tgt) ∧
                     (∀ p, p ∈ targets tgt → is_Some (files s' !! p))
         | Err e => (e = KeyError ∧ target_of img_root line = Err KeyError
                     ∧ new = [])
                    ∨ (e = LibraryError ∧
                       ∃ img, img ∈ row_images line ∧
                              decode_base64_to_image ds img = None)
         end.
Proof.
  unfold materialize, target_of, row_images.
  destruct (image line) as [img|imgs].
  - destruct (col line "index") as [index|]; simpl.
    2:{ intros [= <- <-]. exists []. split; [apply frame_refl|]. by left. }
    destruct (cache_image _ _ _ _) as [r1 s1] eqn:H1.
    apply cache_image_frame in H1 as (n1 & Hf1 & Hn1 & Hr1).
    destruct Hr1 as [[-> Hdec]|[-> Hsome]]; intros [= <- <-];
      exists n1; (split; [done|]).
    + right. split; [done|]. exists img. split; [left|done].
    + split; [done|]. simpl. split.
      * intros p Hp. rewrite (Hn1 p Hp). left.
      * by intros p ->%list_elem_of_singleton.
  - destruct (image_path line) as [names|]; simpl.
    2:{ intros [= <- <-]. exists []. split; [apply frame_refl|]. by left. }
    destruct (cache_images _ _ _ _) as [[ps|e] s1] eqn:H1.
    + pose proof (cache_images_paths _ _ _ _ _ _ H1) as Hps.
      apply cache_images_frame in H1 as (n1 & Hf1 & Hn1 & Hr1).
      intros [= <- <-]. exists n1. split; [done|].
      split; [by rewrite Hps|]. simpl. split; [|done].
      intros p Hp. rewrite Hps. by apply Hn1.
    + apply cache_images_frame in H1 as (n1 & Hf1 & Hn1 & Hr1).
      intros [= <- <-]. exists n1. split; [done|].
      destruct Hr1 as (-> & img & Hin & Hdec). right. split; [done|].
      exists img. split; [|done].
      apply list_elem_of_fmap in Hin as ([i n] & -> & Hin).
      by apply elem_of_zip_l in Hin.
Qed.

End Disk.

Section DiskTheorems.

Context (ds : datasets).

Lemma cache_image_skip (img path : pystr) (s : store) :
  read_ok ds s path = true → cache_image ds img path s = (Ok tt, s).
Proof. unfold cache_image. by intros ->. Qed.

Lemma cache_images_skip (img_root : pystr) (pairs : list (pystr * pystr))
    (s : store) :
  (∀ p, p ∈ map (osp_join img_root) pairs.*2 → read_ok ds s p = true) →
  cache_images ds img_root pairs s
  = (Ok (map (osp_join img_root) pairs.*2), s).
Proof.
  induction pairs as [|[img im_name] rest IH]; simpl; intros Hall; [done|].
  rewrite cache_image_skip by (apply Hall; left).
  rewrite IH; [done|]. intros p Hp. apply Hall. by right.
Qed.

Lemma materialize_skip (img_root : pystr) (line : row) (s : store)
    (tgt : target) :
  target_of img_root line = Ok tgt →
  (∀ p, p ∈ targets tgt → read_ok ds s p = true) →
  materialize ds img_root line s = (Ok tgt, s).
Proof.
  unfold target_of, materialize. destruct (image line) as [img|imgs].
  - destruct (col line "index") as [index|]; [|discriminate].
    intros [= <-] Hall. rewrite cache_image_skip; [done|]. apply Hall. left.
  - destruct (image_path line) as [names|]; [|discriminate].
    intros [= <-] Hall. by rewrite cache_images_skip.
Qed.

Lemma cache_image_readable (img path : pystr) (s s1 : store) :
  (∀ i f, decode_base64_to_image ds i = Some f → readable ds f = true) →
  cache_image ds img path s = (Ok tt, s1) → read_ok ds s1 path = true.
Proof.
  intros Hgood. unfold cache_image, decode_base64_to_image_file.
  destruct (read_ok ds s path) eqn:Hok; simpl; [by intros [= <-]|].
  destruct (decode_base64_to_image ds img) as [f|] eqn:Hf; [|discriminate].
  intros [= <-]. unfold read_ok. simpl. rewrite lookup_insert_eq. eauto.
Qed.

Lemma cache_images_readable (img_root : pystr)
    (pairs : list (pystr * pystr)) (s s1 : store) (tgt_path : list pystr) :
  (∀ i f, decode_base64_to_image ds i = Some f → readable ds f = true) →
  cache_images ds img_root pairs s = (Ok tgt_path, s1) →
  ∀ p, p ∈ tgt_path → read_ok ds s1 p = true.
Proof.
  intros Hgood. revert s s1 tgt_path.
  induction pairs as [|[img im_name] rest IH]; intros s s1 tgt_path; simpl.
  - intros [= <- <-] p Hp. by apply elem_of_nil in Hp.
  - destruct (cache_image ds img (osp_join img_root im_name) s)
      as [[[]|e] sa] eqn:Ha; [|discriminate].
    destruct (cache_images ds img_root rest sa) as [[ps|e] sb] eqn:Hb;
      [|discriminate].
    intros [= <- <-] p [->|Hp]%elem_of_cons; [|by eapply IH].
    apply cache_image_readable in Ha; [|done].
    apply cache_images_trace in Hb as (_ & _ & _ & Hpres).
    by rewrite (read_ok_files ds sa sb) by (by apply Hpres).
Qed.

Lemma materialize_readable (img_root : pystr) (line : row) (s s1 : store)
    (tgt : target) :
  (∀ i f, decode_base64_to_image ds i = Some f → readable ds f = true) →
  materialize ds img_root line s = (Ok tgt, s1) →
  ∀ p, p ∈ targets tgt → read_ok ds s1 p = true.
Proof.
  intros Hgood. unfold materialize. destruct (image line) as [img|imgs].
  - destruct (col line "index") as [index|]; [|discriminate].
    destruct (cache_image _ _ _ _) as [[[]|e] sa] eqn:Ha; [|discriminate].
    intros [= <- <-] p ->%list_elem_of_singleton.
    by eapply cache_image_readable.
  - destruct (image_path line) as [names|]; [|discriminate].
    destruct (cache_images _ _ _ _) as [[ps|e] sa] eqn:Ha; [|discriminate].
    intros [= <- <-]. by eapply cache_images_readable.
Qed.

End DiskTheorems.

(** X8.  Whether it returns or raises, [build_prompt] only adds to the
    disk: it appends to the trace of writes, drops no directory,
    leaves every file it does not write as it was, and writes only
    paths that [read_ok] refused when the call started.  When it
    returns, the paths it wrote are among those of the record, and
    every path of the record has a file. *)
Theorem build_prompt_only_adds (ds : datasets) (line : row)
    (dataset : option pystr) (st st' : store)
    (res : result prompt_record) :
  build_prompt ds line dataset st = (res, st') →
  ∃ new,
    written st' = written st ++ new ∧
    dirs st ⊆ dirs st' ∧
    (∀ p, p ∉ new → files st' !! p = files st !! p) ∧
    (∀ p, p ∈ new → read_ok ds st p = false ∧ is_Some (files st' !! p)) ∧
    (∀ r, res = Ok r →
          (∀ p, p ∈ new → p ∈ targets (prompt_image r)) ∧
          (∀ p, p ∈ targets (prompt_image r) → is_Some (files st' !! p))).
Proof.
  unfold build_prompt.
  destruct (img_root_map ds dataset) as [root|].
  2:{ intros [= <- <-]. exists []. rewrite app_nil_r.
      split; [done|]. split; [done|]. split; [done|].
      split; [by intros p ?%elem_of_nil | discriminate]. }
  set (img_root := osp_join (u "images") root).
  destruct (materialize ds img_root line (makedirs img_root st))
    as [r1 s1] eqn:Hm.
  pose proof Hm as Htr.
  apply materialize_trace in Htr as (new' & Hw' & Hnew' & _).
  apply materialize_frame in Hm as (new & (Hw & Hd & Hf & Hn & _) & Hres).
  assert (new' = new) as ->.
  { apply (app_inv_head (written (makedirs img_root st))). congruence. }
  intros Heq.
  assert (st' = s1) as ->
    by (destruct r1; [destruct (build_text ds line dataset)|]; congruence).
  exists new. split; [done|]. split; [|split; [done|split]].
  - rewrite Hd. simpl. apply union_subseteq_r.
  - intros p Hp. split; [|by apply Hn].
    destruct (read_ok ds st p) eqn:Hok; [|done].
    by destruct (Hnew' p Hok).
  - intros r ->. destruct r1 as [tgt|e]; [|discriminate].
    destruct (build_text ds line dataset); [|discriminate].
    injection Heq as <-. simpl. by destruct Hres as (_ & ? & ?).
Qed.

Lemma build_prompt_only_adds_witness :
  ∃ st',
    build_prompt Sample.tables Cases.numeric_question (Some (u "MMBench"))
      Sample.empty_disk = (Err TypeError, st') ∧
    written st' = [u "images/MMBench/1.jpg"] ∧
    is_Some (files st' !! u "images/MMBench/1.jpg").
Proof.
  destruct (build_prompt Sample.tables Cases.numeric_question
              (Some (u "MMBench")) Sample.empty_disk) as [res st'] eqn:H.
  destruct (build_prompt_only_adds _ _ _ _ _ _ H)
    as (new & Hw & _ & _ & Hnew & _).
  exists st'.
  assert (res = Err TypeError ∧ new = [u "images/MMBench/1.jpg"])
    as [-> ->].
  { vm_compute in H. injection H as <- <-. split; [reflexivity|].
    vm_compute in Hw. vm_compute. by symmetry. }
  split; [reflexivity|]. split; [exact Hw|].
  apply Hnew. left.
Defined.

Lemma makedirs_again (d : pystr) (s : store) :
  d ∈ dirs s → makedirs d s = s.
Proof.
  intros Hd. destruct s as [f ds w]. unfold makedirs. simpl in *.
  f_equal. apply set_eq. intros x. rewrite elem_of_union, elem_of_singleton.
  split; [intros [->|?]; done | by right].
Qed.

(** X9.  Where every image that decodes gives a file the image library
    can read, a second call of [build_prompt] changes nothing at all:
    after a call that returned, the same call returns the same record
    and leaves the disk, files, directories and trace of writes, as it
    found it. *)
Theorem build_prompt_settles (ds : datasets) (line : row)
    (dataset : option pystr) (st st1 : store) (r : prompt_record) :
  (∀ img f, decode_base64_to_image ds img = Some f → readable ds f = true) →
  build_prompt ds line dataset st = (Ok r, st1) →
  build_prompt ds line dataset st1 = (Ok r, st1).
Proof.
  intros Hgood H. apply build_prompt_Ok in H as (root & Hroot & Hm & Ht).
  set (img_root := osp_join (u "images") root) in *.
  apply build_prompt_Ok. exists root. fold img_root.
  split; [done|]. split; [|done].
  pose proof (materialize_readable ds img_root line _ _ _ Hgood Hm) as Hall.
  pose proof (materialize_target ds img_root line _ _ _ Hm) as Htgt.
  apply materialize_frame in Hm as (new & (_ & Hd & _) & _).
  rewrite makedirs_again.
  - by apply materialize_skip.
  - rewrite Hd. simpl. apply elem_of_union_l. by apply elem_of_singleton.
Qed.

Lemma build_prompt_settles_witness :
  ∃ r st1,
    build_prompt Sample.tables Sample.pair (Some (u "MME"))
      Sample.empty_disk = (Ok r, st1) ∧
    build_prompt Sample.tables Sample.pair (Some (u "MME")) st1
    = (Ok r, st1).
Proof.
  destruct (build_prompt Sample.tables Sample.pair (Some (u "MME"))
              Sample.empty_disk) as [[r|e] st1] eqn:H;
    [|by vm_compute in H].
  exists r, st1. split; [reflexivity|].
  apply (build_prompt_settles Sample.tables Sample.pair (Some (u "MME"))
           Sample.empty_disk); [|exact H].
  intros [|c img] f; simpl; [discriminate|]. by intros [= <-].
Defined.



(** ** The chunks of the tokenizer's text *)

Section Chunks.

Context (sep : pystr) (Hsep : sep ≠ []).

Lemma split_go_drop (skip : nat) (cur s : pystr) :
  split_go sep skip cur s = split_go sep 0 cur (drop skip s).
Proof.
  revert skip. induction s as [|c s' IH]; intros [|k]; try done.
  cbn [split_go]. rewrite IH. by rewrite skipn_cons.
Qed.

Lemma split_go_no_match (cur : pystr) (c : N) (s : pystr) :
  starts_with sep (c :: s) = false →
  split_go sep 0 cur (c :: s) = split_go sep 0 (cur ++ [c]) s.
Proof. cbn [split_go]. by intros ->. Qed.

Lemma split_go_match (cur b : pystr) :
  split_go sep 0 cur (sep ++ b) = cur :: split_go sep 0 [] b.
Proof.
  assert (Hm : starts_with sep (sep ++ b) = true)
    by (apply starts_with_prefix; eauto).
  destruct (sep ++ b) as [|c s] eqn:E.
  - by apply app_eq_nil in E as [? _].
  - cbn [split_go]. rewrite Hm. f_equal. rewrite split_go_drop. f_equal.
    assert (drop (length sep) (c :: s) = b) as <-
      by (by rewrite <- E, drop_app_length).
    destruct (length sep) as [|n] eqn:Hn.
    + by apply length_zero_iff_nil in Hn.
    + simpl. by rewrite Nat.sub_0_r.
Qed.

(** Without a match there is one chunk, the text. *)
Lemma split_go_zero (cur s : pystr) :
  pycount sep s = 0%nat → split_go sep 0 cur s = [cur ++ s].
Proof.
  revert cur. induction s as [|c s' IH]; intros cur H0.
  - by rewrite app_nil_r.
  - destruct (starts_with sep (c :: s')) eqn:Hm.
    + rewrite pycount_match_cons in H0 by done. discriminate.
    + rewrite split_go_no_match by done.
      rewrite pycount_no_match in H0 by done.
      rewrite IH by done. by rewrite <- app_assoc.
Qed.

(** With a match, the first chunk ends at the leftmost one. *)
Lemma split_go_first (cur s : pystr) :
  pycount sep s ≠ 0%nat →
  ∃ a b, s = a ++ sep ++ b ∧
         pycount sep a = 0%nat ∧
         pycount sep s = S (pycount sep b) ∧
         split_go sep 0 cur s = (cur ++ a) :: split_go sep 0 [] b.
Proof.
  revert cur. induction s as [|c s' IH]; intros cur Hpos; [done|].
  destruct (starts_with sep (c :: s')) eqn:Hm.
  - apply starts_with_prefix in Hm as [b Hb]. exists [], b.
    rewrite Hb, app_nil_r. split; [done|]. split; [done|].
    split; [by apply pycount_match | apply split_go_match].
  - rewrite pycount_no_match in Hpos by done.
    destruct (IH (cur ++ [c]) Hpos) as (a & b & Hs & Ha & Hc & Hsplit).
    exists (c :: a), b. split; [by rewrite Hs|].
    rewrite (pycount_no_match sep c s'), (split_go_no_match cur c s')
      by done.
    split; [|split; [done|]].
    + destruct (starts_with sep (c :: a)) eqn:Hma.
      * apply starts_with_prefix in Hma as [x Hx].
        assert (starts_with sep (c :: s') = true); [|congruence].
        apply starts_with_prefix. exists (x ++ sep ++ b).
        by rewrite Hs, app_comm_cons, Hx, <- app_assoc.
      * by rewrite pycount_no_match.
    + by rewrite Hsplit, <- app_assoc.
Qed.

Lemma split_go_chunks (n : nat) :
  ∀ cur s, pycount sep s = n →
    pyjoin sep (split_go sep 0 cur s) = cur ++ s ∧
    Forall (λ chunk, pycount sep chunk = 0%nat)
           (tail (split_go sep 0 cur s)) ∧
    ∃ a rest, split_go sep 0 cur s = (cur ++ a) :: rest ∧
              pycount sep a = 0%nat.
Proof.
  induction n as [|n IH]; intros cur s Hn.
  - rewrite split_go_zero by done. simpl. split; [done|].
    split; [constructor|]. by exists s, [].
  - destruct (split_go_first cur s) as (a & b & Hs & Ha & Hc & Hsplit);
      [lia|].
    assert (pycount sep b = n) as Hb by lia.
    destruct (IH [] b Hb) as (Hjoin & Hall & a' & rest & Hb' & Ha').
    rewrite Hsplit, Hb'. simpl. split; [|split].
    + rewrite Hb' in Hjoin. simpl in Hjoin. rewrite Hjoin, Hs.
      by rewrite <- app_assoc.
    + rewrite Hb' in Hall. simpl in Hall. by constructor.
    + by exists a, (a' :: rest).
Qed.

End Chunks.

(** X13.  Splitting the tokenizer's text on the placeholder loses
    nothing: the chunks joined with the placeholder give the text
    back, no chunk contains the placeholder, and there is one chunk
    more than the text has matches of it.  An empty placeholder makes
    the split raise a value error. *)
Theorem pysplit_round_trip (sep s : pystr) :
  match pysplit sep s with
  | Ok chunks =>
    sep ≠ [] ∧
    pyjoin sep chunks = s ∧
    Forall (λ chunk, pycount sep chunk = 0%nat) chunks ∧
    length chunks = S (pycount sep s)
  | Err e => sep = [] ∧ e = ValueError
  end.
Proof.
  destruct sep as [|c sep'] eqn:E; [done|]. rewrite <- E.
  assert (Hsep : sep ≠ []) by (by rewrite E).
  rewrite pysplit_Ok by done. split; [done|].
  destruct (split_go_chunks sep Hsep _ [] s eq_refl)
    as (Hjoin & Hall & a & rest & Hsplit & Ha).
  split; [done|]. split; [|apply split_go_length].
  rewrite Hsplit in *. simpl in *. by constructor.
Qed.

(** X14.  When the tokenization passes, the text is a first chunk
    without the placeholder, the placeholder and a second chunk
    without it, and the ids are those of the first chunk with special
    tokens, the image token id, once, and those of the second chunk
    without special tokens. *)
Theorem tokenize_splices_image_token (rt : runtime) (a : adapter)
    (prompt : pystr) (ids : list Z) :
  tokenize rt a prompt = Ok ids →
  ∃ before after,
    compose rt a prompt = before ++ DEFAULT_IMAGE_TOKEN rt ++ after ∧
    pycount (DEFAULT_IMAGE_TOKEN rt) before = 0%nat ∧
    pycount (DEFAULT_IMAGE_TOKEN rt) after = 0%nat ∧
    ids = encode (the_tokenizer a) before true
          ++ [IMAGE_TOKEN_INDEX rt]
          ++ encode (the_tokenizer a) after false.
Proof.
  intros H.
  assert (Hsep : DEFAULT_IMAGE_TOKEN rt ≠ []).
  { intros E. unfold tokenize in H. by rewrite E in H. }
  rewrite tokenize_count in H by done.
  destruct (decide (pycount (DEFAULT_IMAGE_TOKEN rt) (compose rt a prompt)
                    = 1%nat)) as [H1|H1].
  2:{ by rewrite bool_decide_eq_false_2 in H. }
  rewrite bool_decide_eq_true_2 in H by done. injection H as <-.
  destruct (split_go_first _ Hsep [] (compose rt a prompt))
    as (before & after & Hs & Hb & Hc & Hsplit); [lia|].
  assert (Ha : pycount (DEFAULT_IMAGE_TOKEN rt) after = 0%nat) by lia.
  exists before, after. rewrite Hsplit, (split_go_zero _ Hsep) by done.
  done.
Qed.

Lemma tokenize_splices_image_token_witness :
  ∃ before after,
    u "USER: <image>" ++ nl ++ u "hi ASSISTANT:"
    = before ++ u "<image>" ++ after ∧
    tokenize Sample.xtuner
      (Sample.plain (Some [Lit (u "USER: "); Input; Lit (u " ASSISTANT:")]))
      (u "hi")
    = Ok (encode Sample.tok before true ++ [-200]%Z ++
          encode Sample.tok after false).
Proof.
  destruct (tokenize Sample.xtuner
              (Sample.plain
                 (Some [Lit (u "USER: "); Input; Lit (u " ASSISTANT:")]))
              (u "hi")) as [ids|e] eqn:H; [|by vm_compute in H].
  destruct (tokenize_splices_image_token _ _ _ _ H)
    as (before & after & Htext & _ & _ & ->).
  exists before, after. split; [exact Htext | reflexivity].
Defined.

(** X15.  Without a template the text starts with the placeholder, so
    the tokenization passes exactly when the placeholder is not in
    the rest, the newline and the prompt: it then gives the ids of the
    empty chunk with special tokens, the image token id and the ids of
    the newline and the prompt; a prompt that holds the placeholder is
    refused with an assertion error. *)
Theorem tokenize_without_template (rt : runtime) (a : adapter)
    (prompt : pystr) :
  prompt_template a = None →
  DEFAULT_IMAGE_TOKEN rt ≠ [] →
  tokenize rt a prompt
  = if bool_decide (pycount (DEFAULT_IMAGE_TOKEN rt) (nl ++ prompt) = 0%nat)
    then Ok (encode (the_tokenizer a) [] true
             ++ [IMAGE_TOKEN_INDEX rt]
             ++ encode (the_tokenizer a) (nl ++ prompt) false)
    else Err AssertionError.
Proof.
  intros Hnone Hsep. rewrite tokenize_count by done.
  unfold compose. rewrite Hnone.
  rewrite pycount_match by done.
  destruct (decide (pycount (DEFAULT_IMAGE_TOKEN rt) (nl ++ prompt)
                    = 0%nat)) as [H0|H0].
  - rewrite !bool_decide_eq_true_2 by (done || lia).
    rewrite split_go_match, (split_go_zero _ Hsep) by done. reflexivity.
  - rewrite !bool_decide_eq_false_2 by (done || lia). reflexivity.
Qed.

Lemma tokenize_without_template_witness :
  tokenize Sample.xtuner (Sample.plain None) (u "What is shown?")
  = Ok ([1; -200; 10]%Z ++ map Z.of_N (u "What is shown?")) ∧
  tokenize Sample.xtuner (Sample.plain None) (u "Is <image> shown?")
  = Err AssertionError.
Proof.
  split.
  - rewrite (tokenize_without_template Sample.xtuner (Sample.plain None)
               (u "What is shown?") eq_refl); [reflexivity|discriminate].
  - rewrite (tokenize_without_template Sample.xtuner (Sample.plain None)
               (u "Is <image> shown?") eq_refl); [reflexivity|discriminate].
Defined.

(** ** The answer *)

Lemma lstrip_tight (s : pystr) : tight (lstrip s).
Proof.
  induction s as [|c s IH]; simpl; [done|].
  destruct (isspace c) eqn:E; [done|]. simpl. done.
Qed.

Lemma lstrip_spaces (s : pystr) :
  ∃ k, s = k ++ lstrip s ∧ Forall (λ c, isspace c = true) k.
Proof.
  induction s as [|c s (k & Hk & Hall)]; simpl.
  - by exists [].
  - destruct (isspace c) eqn:E.
    + exists (c :: k). split; [by rewrite Hk at 1|]. by constructor.
    + by exists [].
Qed.

(** [strip] takes whitespace, and only whitespace, off both ends. *)
Lemma strip_spec (s : pystr) :
  ∃ l r, s = l ++ strip s ++ r ∧
         Forall (λ c, isspace c = true) l ∧
         Forall (λ c, isspace c = true) r ∧
         tight (strip s) ∧ tight (rev (strip s)).
Proof.
  unfold strip.
  destruct (lstrip_spaces s) as (l & Hl & Hall_l).
  destruct (lstrip_spaces (rev (lstrip s))) as (k & Hk & Hall_k).
  exists l, (rev k).
  assert (Hs1 : lstrip s = rev (lstrip (rev (lstrip s))) ++ rev k).
  { rewrite <- rev_app_distr, <- Hk. by rewrite rev_involutive. }
  split; [by rewrite <- Hs1|]. split; [done|].
  split; [by apply Forall_rev|]. split.
  - pose proof (lstrip_tight s) as Ht. rewrite Hs1 in Ht.
    by destruct (rev (lstrip (rev (lstrip s)))).
  - rewrite rev_involutive. apply lstrip_tight.
Qed.

(** X16.  The answer of [generate] is the decoded output without the
    whitespace around it: it neither starts nor ends with a whitespace
    character, and the decoded output is the answer between two runs
    of whitespace. *)
Theorem generate_strips_answer (rt : runtime) (a : adapter)
    (image_path prompt answer : pystr) :
  generate rt a image_path prompt = Ok answer →
  ∃ pixel_values ids output l r,
    encode_image rt a image_path = Ok pixel_values ∧
    tokenize rt a prompt = Ok ids ∧
    llm_generate rt a ids pixel_values = Ok output ∧
    decode (the_tokenizer a) output = l ++ answer ++ r ∧
    Forall (λ c, isspace c = true) l ∧
    Forall (λ c, isspace c = true) r ∧
    tight answer ∧ tight (rev answer).
Proof.
  unfold generate. intros H.
  apply bind_Ok in H as (pv & Hpv & H).
  apply bind_Ok in H as (ids & Hids & H).
  apply bind_Ok in H as (out & Hout & [= <-]).
  destruct (strip_spec (decode (the_tokenizer a) out))
    as (l & r & Hs & Hl & Hr & Ht1 & Ht2).
  by exists pv, ids, out, l, r.
Qed.

Lemma generate_strips_answer_witness :
  generate Sample.xtuner (Sample.plain None) (u "7.jpg") (u "hi")
  = Ok (u "A") ∧
  decode Sample.tok [32; 65; 10]%Z = u " " ++ u "A" ++ nl.
Proof.
  destruct (generate Sample.xtuner (Sample.plain None) (u "7.jpg") (u "hi"))
    as [answer|e] eqn:H; [|by vm_compute in H].
  destruct (generate_strips_answer _ _ _ _ _ H)
    as (pv & ids & out & l & r & Hpv & Hids & Hout & Hdec & _).
  injection Hout as <-.
  split; [|reflexivity].
  vm_compute in H. injection H as <-. reflexivity.
Defined.

(** X20.  The prompt record does not depend on the disk: two calls of
    [build_prompt] with the same row and dataset that both return,
    from whatever stores, return the same paths and the same text,
    the paths being those [target_of] reads off the row. *)
Theorem build_prompt_record_pure (ds : datasets) (line : row)
    (dataset : option pystr) (s1 s1' s2 s2' : store)
    (r1 r2 : prompt_record) :
  build_prompt ds line dataset s1 = (Ok r1, s1') →
  build_prompt ds line dataset s2 = (Ok r2, s2') →
  r1 = r2 ∧
  ∃ root, img_root_map ds dataset = Some root ∧
          target_of (osp_join (u "images") root) line
          = Ok (prompt_image r1).
Proof.
  intros H1 H2.
  apply build_prompt_Ok in H1 as (root & Hroot & Hm1 & Ht1).
  apply build_prompt_Ok in H2 as (root' & Hroot' & Hm2 & Ht2).
  rewrite Hroot in Hroot'. injection Hroot' as <-.
  apply materialize_target in Hm1, Hm2.
  split; [|by exists root].
  destruct r1, r2. simpl in *. f_equal; congruence.
Qed.

Lemma build_prompt_record_pure_witness :
  ∃ r st1 st2,
    build_prompt Sample.tables Sample.sky (Some (u "MMBench"))
      Sample.empty_disk = (Ok r, st1) ∧
    build_prompt Sample.tables Sample.sky (Some (u "MMBench"))
      Cases.warm_disk = (Ok r, st2) ∧
    written st1 = [u "images/MMBench/7.jpg"].
Proof.
  destruct (build_prompt Sample.tables Sample.sky (Some (u "MMBench"))
              Sample.empty_disk) as [[r1|e] st1] eqn:H1;
    [|by vm_compute in H1].
  destruct (build_prompt Sample.tables Sample.sky (Some (u "MMBench"))
              Cases.warm_disk) as [[r2|e] st2] eqn:H2;
    [|by vm_compute in H2].
  destruct (build_prompt_record_pure _ _ _ _ _ _ _ _ _ H1 H2) as (<- & _).
  exists r1, st1, st2. split; [reflexivity|]. split; [reflexivity|].
  vm_compute in H1. by injection H1 as _ <-.
Defined.
